(** * ivy_debezium: Debezium CDC events to Cypher statements

    A shallow embedding of [memgraph/query_modules/ivy_debezium.py] and the
    properties of its two statement builders.

    Conventions of the embedding.
    - A Python [str] is a Rocq [string], one [ascii] per code point; the
      model covers text whose code points are below 256, and the character
      classes ([isalnum], [isspace], [isprintable]) are Python's own on
      that range.
    - A Python value is a [value]: the JSON data model, which is what
      [json.loads] produces and what a Debezium row holds.  A float is
      carried by its [repr] text.
    - A [dict] is an association list in insertion order with unique keys:
      assigning to an existing key keeps its position, as in Python.
    - A function that can raise returns an [outcome]; [json.loads] is
      Python's standard library and is a parameter of the builders.
    - The functions named as in the source are run by an interpreter
      without limits: [str], [json.dumps] and nested calls always succeed.
      Their [_in] variants are the same functions run by an [interpreter]
      that has limits (recursion depth, integer digits), and raise what it
      raises; the two agree on rows within the limits. *)

From Stdlib Require Import String Ascii List ZArith Bool Lia DecimalString.
From Stdlib Require DecimalZ.
Import ListNotations.
Local Open Scope list_scope.
Local Open Scope string_scope.

(** ** Characters and text *)

Definition chr (n : nat) : ascii := ascii_of_nat n.
Definition ord (c : ascii) : nat := nat_of_ascii c.

Definition newline : string := String (chr 10) EmptyString.
Definition dquote : string := String (chr 34) EmptyString.
Definition backslash : string := "\".
Definition squote : string := "'".

Definition in_range (lo hi : nat) (c : ascii) : bool :=
  (lo <=? ord c)%nat && (ord c <=? hi)%nat.

(** [str.isalnum] on one character (code points below 256). *)
Definition char_isalnum (c : ascii) : bool :=
  in_range 48 57 c || in_range 65 90 c || in_range 97 122 c
  || (ord c =? 170)%nat || in_range 178 179 c || (ord c =? 181)%nat
  || in_range 185 186 c || in_range 188 190 c
  || in_range 192 214 c || in_range 216 246 c || in_range 248 255 c.

(** [str.isspace] on one character. *)
Definition char_isspace (c : ascii) : bool :=
  in_range 9 13 c || in_range 28 32 c || (ord c =? 133)%nat || (ord c =? 160)%nat.

(** [str.isprintable] on one character. *)
Definition char_isprintable (c : ascii) : bool :=
  (in_range 32 126 c || in_range 161 255 c) && negb (ord c =? 173)%nat.

Definition is_empty (s : string) : bool :=
  match s with EmptyString => true | String _ _ => false end.

Fixpoint str_forall (f : ascii -> bool) (s : string) : bool :=
  match s with
  | EmptyString => true
  | String c t => f c && str_forall f t
  end.

Fixpoint str_exists (f : ascii -> bool) (s : string) : bool :=
  match s with
  | EmptyString => false
  | String c t => f c || str_exists f t
  end.

(** [s.isalnum()]: every character is alphanumeric and there is at least one. *)
Definition isalnum (s : string) : bool :=
  negb (is_empty s) && str_forall char_isalnum s.

(** [s.replace(old, new)] for a pattern [old] of one character. *)
Fixpoint replace (old : ascii) (new : string) (s : string) : string :=
  match s with
  | EmptyString => EmptyString
  | String c t =>
      if Ascii.eqb c old then new ++ replace old new t
      else String c (replace old new t)
  end.

(** [needle in hay] for two strings. *)
Fixpoint str_contains (needle hay : string) : bool :=
  prefix needle hay
  || match hay with
     | EmptyString => false
     | String _ t => str_contains needle t
     end.

Fixpoint lstrip (s : string) : string :=
  match s with
  | EmptyString => EmptyString
  | String c t => if char_isspace c then lstrip t else s
  end.

Fixpoint rstrip (s : string) : string :=
  match s with
  | EmptyString => EmptyString
  | String c t =>
      let t' := rstrip t in
      if char_isspace c && is_empty t' then EmptyString else String c t'
  end.

(** [s.strip()] *)
Definition strip (s : string) : string := rstrip (lstrip s).

(** [sep.join(parts)] *)
Definition join (sep : string) (parts : list string) : string :=
  String.concat sep parts.

Definition hex_digit (n : nat) : ascii :=
  if (n <? 10)%nat then chr (48 + n) else chr (87 + n).

(** Two lower-case hexadecimal digits of a code point below 256. *)
Definition hex2 (c : ascii) : string :=
  String (hex_digit (ord c / 16)) (String (hex_digit (ord c mod 16)) EmptyString).

(** [str(n)] for an integer. *)
Definition str_of_Z (z : Z) : string := NilZero.string_of_int (Z.to_int z).

(** ** Values *)

#[warnings="-register-all"]
Inductive value : Type :=
| VNone
| VBool (b : bool)
| VInt (z : Z)
| VFloat (repr : string)
| VStr (s : string)
| VList (l : list value)
| VDict (d : list (string * value)).

Definition dict : Type := list (string * value).

(** A raw Kafka payload: a [bytes] or [bytearray] object, given by what
    [.decode("utf-8")] does on it ([None] when it raises), or any other
    Python object. *)
Inductive message : Type :=
| Bytes (decoded : option string)
| Obj (v : value).

(** ** Exceptions *)

Inductive exn : Type :=
  TypeError | AttributeError | KeyError | RecursionError | ValueError.

Inductive outcome (A : Type) : Type :=
| Return (a : A)
| Raise (e : exn).
Arguments Return {A} a.
Arguments Raise {A} e.

Definition bind {A B : Type} (m : outcome A) (k : A -> outcome B) : outcome B :=
  match m with
  | Return a => k a
  | Raise e => Raise e
  end.

Notation "x <- m ;; k" := (bind m (fun x => k))
  (at level 61, m at next level, right associativity).

(** ** Dictionaries *)

Fixpoint dict_get (k : string) (d : dict) : option value :=
  match d with
  | [] => None
  | (k', v) :: rest => if String.eqb k k' then Some v else dict_get k rest
  end.

(** [k in d] *)
Definition dict_mem (k : string) (d : dict) : bool :=
  match dict_get k d with Some _ => true | None => false end.

(** [d.get(k)] *)
Definition get (d : dict) (k : string) : value :=
  match dict_get k d with Some v => v | None => VNone end.

(** [d[k] = v]: in place when the key exists, at the end otherwise. *)
Fixpoint dict_set (k : string) (v : value) (d : dict) : dict :=
  match d with
  | [] => [(k, v)]
  | (k', v') :: rest =>
      if String.eqb k k' then (k', v) :: rest
      else (k', v') :: dict_set k v rest
  end.

(** [d[k]] *)
Definition dict_index (d : dict) (k : string) : outcome value :=
  match dict_get k d with
  | Some v => Return v
  | None => Raise KeyError
  end.

Definition keys (d : dict) : list string := map fst d.

(** ** Built-in operations on values *)

(** Truth value of an object, as tested by [not x] and [x or y]. *)
Definition truthy (v : value) : bool :=
  match v with
  | VNone => false
  | VBool b => b
  | VInt z => negb (Z.eqb z 0)
  | VFloat r => negb (String.eqb r "0.0" || String.eqb r "-0.0")
  | VStr s => negb (is_empty s)
  | VList l => match l with [] => false | _ :: _ => true end
  | VDict d => match d with [] => false | _ :: _ => true end
  end.

(** [x or y] *)
Definition py_or (x y : value) : value := if truthy x then x else y.

Definition is_dict (v : value) : bool :=
  match v with VDict _ => true | _ => false end.

(** [repr(s)] of a string: quoted, with the quote, the backslash and the
    characters that are not printable escaped. *)
Definition repr_char (q : ascii) (c : ascii) : string :=
  if Ascii.eqb c q || Ascii.eqb c "\"%char then String "\"%char (String c EmptyString)
  else if (ord c =? 9)%nat then "\t"
  else if (ord c =? 10)%nat then "\n"
  else if (ord c =? 13)%nat then "\r"
  else if char_isprintable c then String c EmptyString
  else "\x" ++ hex2 c.

Fixpoint str_flat_map (f : ascii -> string) (s : string) : string :=
  match s with
  | EmptyString => EmptyString
  | String c t => f c ++ str_flat_map f t
  end.

Definition repr_str (s : string) : string :=
  let q := if str_contains squote s && negb (str_contains dquote s)
           then chr 34 else "'"%char in
  String q (str_flat_map (repr_char q) s) ++ String q EmptyString.

Fixpoint py_repr (v : value) : string :=
  match v with
  | VNone => "None"
  | VBool b => if b then "True" else "False"
  | VInt z => str_of_Z z
  | VFloat r => r
  | VStr s => repr_str s
  | VList l => "[" ++ join ", " (map py_repr l) ++ "]"
  | VDict d =>
      "{" ++ join ", " (map (fun kv => repr_str (fst kv) ++ ": " ++ py_repr (snd kv)) d) ++ "}"
  end.

(** [str(v)], which is also what an f-string field [{v}] expands to. *)
Definition py_str (v : value) : string :=
  match v with
  | VStr s => s
  | _ => py_repr v
  end.

(** [json.dumps(v, separators=(",", ":"))].  With the default
    [ensure_ascii] every character outside the printable ASCII range is
    written as an escape. *)
Definition json_char (c : ascii) : string :=
  if (ord c =? 34)%nat then backslash ++ dquote
  else if (ord c =? 92)%nat then "\\"
  else if (ord c =? 10)%nat then "\n"
  else if (ord c =? 13)%nat then "\r"
  else if (ord c =? 9)%nat then "\t"
  else if (ord c =? 8)%nat then "\b"
  else if (ord c =? 12)%nat then "\f"
  else if in_range 32 126 c then String c EmptyString
  else "\u00" ++ hex2 c.

Definition json_str (s : string) : string :=
  dquote ++ str_flat_map json_char s ++ dquote.

Definition json_float (r : string) : string :=
  if String.eqb r "nan" then "NaN"
  else if String.eqb r "inf" then "Infinity"
  else if String.eqb r "-inf" then "-Infinity"
  else r.

Fixpoint json_dumps (v : value) : string :=
  match v with
  | VNone => "null"
  | VBool b => if b then "true" else "false"
  | VInt z => str_of_Z z
  | VFloat r => json_float r
  | VStr s => json_str s
  | VList l => "[" ++ join "," (map json_dumps l) ++ "]"
  | VDict d =>
      "{" ++ join "," (map (fun kv => json_str (fst kv) ++ ":" ++ json_dumps (snd kv)) d) ++ "}"
  end.

(** ** The transformation module *)

(** [s == v] for a string [s] *)
Definition py_eq_str (s : string) (v : value) : bool :=
  match v with VStr t => String.eqb s t | _ => false end.

(** [key in obj] for a string [key] *)
Definition py_contains (key : string) (obj : value) : outcome bool :=
  match obj with
  | VDict d => Return (dict_mem key d)
  | VStr s => Return (str_contains key s)
  | VList l => Return (existsb (py_eq_str key) l)
  | VNone | VBool _ | VInt _ | VFloat _ => Raise TypeError
  end.

(** [obj[key]] for a string [key] *)
Definition py_getitem (obj : value) (key : string) : outcome value :=
  match obj with
  | VDict d => dict_index d key
  | _ => Raise TypeError
  end.

(** [obj.get(key)] *)
Definition py_get (obj : value) (key : string) : outcome value :=
  match obj with
  | VDict d => Return (get d key)
  | _ => Raise AttributeError
  end.

(** [_payload], lines 34-38.  [obj] is whatever [_as_obj] returned, so the
    membership test and the subscript are those of its run-time type. *)
Definition _payload (obj : value) : outcome value :=
  has <- py_contains "payload" obj ;;
  if has then
    inner <- py_getitem obj "payload" ;;
    if is_dict inner then Return inner else Return obj
  else Return obj.

(** [_cypher_escape_string], lines 41-42 *)
Definition _cypher_escape_string (s : string) : string :=
  replace "'"%char "\'" (replace "\"%char "\\" s).

(** [_cypher_literal], lines 45-60, run without limits: every call
    returns, and [json.dumps] raises on no value of this domain, so the
    handler of lines 59-60 has nothing to catch.  [_cypher_literal_in]
    below is the same function under an interpreter's limits, where the
    recursion and [str] can raise. *)
Fixpoint _cypher_literal (v : value) : string :=
  match v with
  | VNone => "NULL"
  | VBool b => if b then "true" else "false"
  | VInt _ | VFloat _ => py_str v
  | VStr s => "'" ++ _cypher_escape_string s ++ "'"
  | VList l => "[" ++ join ", " (map _cypher_literal l) ++ "]"
  | VDict _ => "'" ++ _cypher_escape_string (json_dumps v) ++ "'"
  end.

(** [_set_props], lines 63-73.  [set_clause] is the appended f-string and
    [set_clauses] the loop that fills [clauses]. *)
Definition set_clause (var : string) (k : string) (v : value) : string :=
  "SET " ++ var ++ "." ++ k ++ " = " ++ _cypher_literal v.

Definition in_set (k : string) (skip : list string) : bool :=
  existsb (String.eqb k) skip.

Fixpoint set_clauses (var : string) (items : dict) (skip : list string) : list string :=
  match items with
  | [] => []
  | (k, v) :: rest =>
      if in_set k skip then set_clauses var rest skip
      else if negb (isalnum (replace "_"%char EmptyString k)) then set_clauses var rest skip
      else set_clause var k v :: set_clauses var rest skip
  end.

Definition _set_props (var : string) (props : dict) (skip : option (list string)) : string :=
  let skip := match skip with Some (x :: s) => x :: s | _ => [] end in
  join newline (set_clauses var props skip).

(** Line 86 and line 135: the row is [after] when that is a dict, else
    [before] when that is a dict, else [None]. *)
Definition select_row (after before : value) : option dict :=
  match after with
  | VDict a => Some a
  | _ => match before with
         | VDict b => Some b
         | _ => None
         end
  end.

(** Lines 110-112 and 161-163: copy the known columns the row has. *)
Definition copy_known (ks : list string) (row props : dict) : dict :=
  fold_left (fun props k => if dict_mem k row then dict_set k (get row k) props else props)
            ks props.

(** Lines 115-117 and 164-166: flatten [data] into the properties. *)
Definition merge_data (data : value) (props : dict) : dict :=
  match data with
  | VDict d => fold_left (fun props kv => dict_set (fst kv) (snd kv) props) d props
  | _ => props
  end.

(** The tuples of line 110 and line 161. *)
Definition entity_known : list string :=
  ["version"; "source_count"; "created_at"; "updated_at"; "deleted_at"].

Definition relationship_known : list string :=
  ["source_plan_id"; "source_execution_id"; "created_at"; "updated_at"; "deleted_at"].

(** Lines 106-117: the property map of an entity node. *)
Definition entity_props (row : dict) (data : value) : dict :=
  let entity_id := get row "id" in
  let tenant_id := get row "tenant_id" in
  let entity_type := get row "entity_type" in
  let props : dict := [] in
  let props := dict_set "id" (VStr (py_str entity_id)) props in
  let props := dict_set "tenant_id" (VStr (py_str tenant_id)) props in
  let props := dict_set "entity_type" (VStr (py_str entity_type)) props in
  let props := copy_known entity_known row props in
  merge_data data props.

(** Lines 158-166: the property map of a relationship edge. *)
Definition relationship_props (row : dict) (data : value) : dict :=
  let tenant_id := get row "tenant_id" in
  let rel_id := get row "id" in
  let props : dict := [] in
  let props := dict_set "id" (VStr (py_str rel_id)) props in
  let props := dict_set "tenant_id" (VStr (py_str tenant_id)) props in
  let props := copy_known relationship_known row props in
  merge_data data props.

(** Lines 119-123: the f-string of the entity statement, with its fields
    already expanded. *)
Definition entity_template (label key_id key_tenant sets : string) : string :=
  newline
  ++ "MERGE (e:" ++ label ++ " {id: " ++ key_id ++ ", tenant_id: " ++ key_tenant ++ "})"
  ++ newline
  ++ sets ++ newline
  ++ "RETURN e;" ++ newline.

(** Lines 168-174: the f-string of the relationship statement. *)
Definition relationship_template
    (from_type from_id to_type to_id tenant rel_type key_id key_tenant sets : string) : string :=
  newline
  ++ "MERGE (a:" ++ from_type ++ " {id: " ++ from_id ++ ", tenant_id: " ++ tenant ++ "})"
  ++ newline
  ++ "MERGE (b:" ++ to_type ++ " {id: " ++ to_id ++ ", tenant_id: " ++ tenant ++ "})"
  ++ newline
  ++ "MERGE (a)-[r:" ++ rel_type ++ " {id: " ++ key_id ++ ", tenant_id: " ++ key_tenant
  ++ "}]->(b)" ++ newline
  ++ sets ++ newline
  ++ "RETURN r;" ++ newline.

(** Line 95 and line 148: the columns a row must have. *)
Definition entity_fields_ok (row : dict) : bool :=
  truthy (get row "id") && truthy (get row "tenant_id") && truthy (get row "entity_type").

Definition relationship_fields_ok (row : dict) : bool :=
  truthy (get row "tenant_id") && truthy (get row "relationship_type")
  && truthy (get row "id") && truthy (get row "from_merged_entity_id")
  && truthy (get row "to_merged_entity_id") && truthy (get row "from_entity_type")
  && truthy (get row "to_entity_type").

Section Builders.

(** [json.loads]; [None] stands for any exception it raises. *)
Variable json_loads : string -> option value.

(** [_as_obj], lines 16-31.  The result is [VNone] for Python's [None]. *)
Definition _as_obj (m : message) : value :=
  match m with
  | Obj VNone => VNone
  | Bytes None => VNone
  | Bytes (Some s) | Obj (VStr s) =>
      match json_loads s with
      | Some v => v
      | None => VNone
      end
  | Obj (VDict d) => VDict d
  | Obj _ => VNone
  end.

(** Lines 98-103 and 151-156: a [data] column that is text is parsed,
    and replaced by an empty dict when parsing raises. *)
Definition parse_data (data : value) : value :=
  match data with
  | VStr s => match json_loads s with
              | Some v => v
              | None => VDict []
              end
  | _ => data
  end.

(** The [data] of a row as the builders end up using it: line 93 and
    lines 99-103 together (line 146 and lines 152-156). *)
Definition row_data (row : dict) : value :=
  parse_data (py_or (get row "data") (VDict [])).

(** Lines 90-124 of [_build_entity_cypher]: from the selected row to
    the statement. *)
Definition entity_row_cypher (row : dict) : outcome (option string) :=
  let entity_id := get row "id" in
  let tenant_id := get row "tenant_id" in
  let entity_type := get row "entity_type" in
  let data := py_or (get row "data") (VDict []) in
  if negb (truthy entity_id) || negb (truthy tenant_id) || negb (truthy entity_type)
  then Return None
  else
    let data := parse_data data in
    let label := py_str entity_type in
    let props := entity_props row data in
    key_id <- dict_index props "id" ;;
    key_tenant <- dict_index props "tenant_id" ;;
    Return (Some (strip (
      entity_template label (_cypher_literal key_id) (_cypher_literal key_tenant)
                      (_set_props "e" props None)))).

(** [_build_entity_cypher], lines 76-124 *)
Definition _build_entity_cypher (message_value : message) : outcome (option string) :=
  match _as_obj message_value with
  | VNone => Return None
  | obj =>
      p <- _payload obj ;;
      op <- py_get p "op" ;;
      after <- py_get p "after" ;;
      before <- py_get p "before" ;;
      match select_row after before with
      | None => Return None
      | Some row => entity_row_cypher row
      end
  end.

(** Lines 139-175 of [_build_relationship_cypher] *)
Definition relationship_row_cypher (row : dict) : outcome (option string) :=
  let tenant_id := get row "tenant_id" in
  let rel_type := get row "relationship_type" in
  let rel_id := get row "id" in
  let from_id := get row "from_merged_entity_id" in
  let to_id := get row "to_merged_entity_id" in
  let from_type := get row "from_entity_type" in
  let to_type := get row "to_entity_type" in
  let data := py_or (get row "data") (VDict []) in
  if negb (truthy tenant_id) || negb (truthy rel_type) || negb (truthy rel_id)
     || negb (truthy from_id) || negb (truthy to_id)
     || negb (truthy from_type) || negb (truthy to_type)
  then Return None
  else
    let data := parse_data data in
    let props := relationship_props row data in
    key_id <- dict_index props "id" ;;
    key_tenant <- dict_index props "tenant_id" ;;
    Return (Some (strip (
      relationship_template
        (py_str from_type) (_cypher_literal (VStr (py_str from_id)))
        (py_str to_type) (_cypher_literal (VStr (py_str to_id)))
        (_cypher_literal (VStr (py_str tenant_id)))
        (py_str rel_type) (_cypher_literal key_id) (_cypher_literal key_tenant)
        (_set_props "r" props None)))).

(** [_build_relationship_cypher], lines 127-175 *)
Definition _build_relationship_cypher (message_value : message) : outcome (option string) :=
  match _as_obj message_value with
  | VNone => Return None
  | obj =>
      p <- _payload obj ;;
      after <- py_get p "after" ;;
      before <- py_get p "before" ;;
      match select_row after before with
      | None => Return None
      | Some row => relationship_row_cypher row
      end
  end.

End Builders.

(** ** The two transformations

    [mgp.Messages] is the host's batch: [total_messages()] and
    [message_at(i).payload()] give the payloads in index order, so a batch
    is the list of its payloads.  [mgp.Record(query=..., parameters=None)]
    is a [record]. *)
Record record : Type := mk_record { query : string; parameters : option dict }.

(** The loop of lines 182-187 and 195-200, [result] being the list built
    so far.  An exception of the builder leaves the loop and the function. *)
Fixpoint transform_loop (build : message -> outcome (option string))
    (payloads : list message) (result : list record) : outcome (list record) :=
  match payloads with
  | [] => Return result
  | payload :: rest =>
      cypher <- build payload ;;
      match cypher with
      | Some text =>
          if negb (is_empty text)
          then transform_loop build rest (result ++ [mk_record text None])%list
          else transform_loop build rest result
      | None => transform_loop build rest result
      end
  end.

(** [transform_merged_entity], lines 178-188 *)
Definition transform_merged_entity (json_loads : string -> option value)
    (messages : list message) : outcome (list record) :=
  transform_loop (_build_entity_cypher json_loads) messages [].

(** [transform_merged_relationship], lines 191-201 *)
Definition transform_merged_relationship (json_loads : string -> option value)
    (messages : list message) : outcome (list record) :=
  transform_loop (_build_relationship_cypher json_loads) messages [].

(** ** The interpreter's limits

    CPython raises [RecursionError] when calls nest beyond its recursion
    limit, which [_cypher_literal] reaches on deeply nested lists and
    [str], [repr] and [json.dumps] on deeply nested values, and
    [ValueError] when an integer of more than 4300 digits is written as
    text.  An [interpreter] says where: [call_depth] is how many calls of
    [_cypher_literal] may be nested within a builder ([_set_props] being
    the deeper of its two call sites), [str_error v] is the exception
    [str(v)] or an f-string field of [v] raises, and [dumps_error v] the
    one [json.dumps(v, separators=(",", ":"))] raises, if any. *)
Record interpreter : Type := {
  call_depth : nat;
  str_error : value -> option exn;
  dumps_error : value -> option exn
}.

(** [str(v)], and an f-string field [{v}] *)
Definition str_in (run : interpreter) (v : value) : outcome string :=
  match str_error run v with
  | Some e => Raise e
  | None => Return (py_str v)
  end.

(** A comprehension over [l] whose body can raise: the first exception
    ends it. *)
Fixpoint map_outcome {A B : Type} (f : A -> outcome B) (l : list A) : outcome (list B) :=
  match l with
  | [] => Return []
  | x :: t =>
      y <- f x ;;
      ys <- map_outcome f t ;;
      Return (y :: ys)
  end.

(** [_cypher_literal], lines 45-60, with [depth] calls still allowed.
    The handler of lines 59-60 catches what [json.dumps] raises; what
    [str] raises in the handler leaves the function. *)
Fixpoint _cypher_literal_in (run : interpreter) (depth : nat) (v : value) : outcome string :=
  match depth with
  | O => Raise RecursionError
  | S depth =>
      match v with
      | VNone => Return "NULL"
      | VBool b => Return (if b then "true" else "false")
      | VInt _ | VFloat _ => str_in run v
      | VStr s => Return ("'" ++ _cypher_escape_string s ++ "'")
      | VList l =>
          items <- map_outcome (_cypher_literal_in run depth) l ;;
          Return ("[" ++ join ", " items ++ "]")
      | VDict _ =>
          match dumps_error run v with
          | None => Return ("'" ++ _cypher_escape_string (json_dumps v) ++ "'")
          | Some _ =>
              text <- str_in run v ;;
              Return ("'" ++ _cypher_escape_string text ++ "'")
          end
      end
  end.

(** [_set_props], lines 63-73 *)
Fixpoint set_clauses_in (run : interpreter) (var : string) (items : dict)
    (skip : list string) : outcome (list string) :=
  match items with
  | [] => Return []
  | (k, v) :: rest =>
      if in_set k skip then set_clauses_in run var rest skip
      else if negb (isalnum (replace "_"%char EmptyString k))
      then set_clauses_in run var rest skip
      else
        literal <- _cypher_literal_in run (call_depth run) v ;;
        clauses <- set_clauses_in run var rest skip ;;
        Return (("SET " ++ var ++ "." ++ k ++ " = " ++ literal) :: clauses)
  end.

Definition _set_props_in (run : interpreter) (var : string) (props : dict)
    (skip : option (list string)) : outcome string :=
  let skip := match skip with Some (x :: s) => x :: s | _ => [] end in
  clauses <- set_clauses_in run var props skip ;;
  Return (join newline clauses).

Section LimitedBuilders.

Variable json_loads : string -> option value.
Variable run : interpreter.

(** Lines 90-124 of [_build_entity_cypher] *)
Definition entity_row_cypher_in (row : dict) : outcome (option string) :=
  let entity_id := get row "id" in
  let tenant_id := get row "tenant_id" in
  let entity_type := get row "entity_type" in
  let data := py_or (get row "data") (VDict []) in
  if negb (truthy entity_id) || negb (truthy tenant_id) || negb (truthy entity_type)
  then Return None
  else
    let data := parse_data json_loads data in
    label <- str_in run entity_type ;;
    id_text <- str_in run entity_id ;;
    tenant_text <- str_in run tenant_id ;;
    type_text <- str_in run entity_type ;;
    let props : dict := [] in
    let props := dict_set "id" (VStr id_text) props in
    let props := dict_set "tenant_id" (VStr tenant_text) props in
    let props := dict_set "entity_type" (VStr type_text) props in
    let props := copy_known entity_known row props in
    let props := merge_data data props in
    key_id <- dict_index props "id" ;;
    key_id_literal <- _cypher_literal_in run (call_depth run) key_id ;;
    key_tenant <- dict_index props "tenant_id" ;;
    key_tenant_literal <- _cypher_literal_in run (call_depth run) key_tenant ;;
    sets <- _set_props_in run "e" props None ;;
    Return (Some (strip (entity_template label key_id_literal key_tenant_literal sets))).

(** [_build_entity_cypher], lines 76-124 *)
Definition _build_entity_cypher_in (message_value : message) : outcome (option string) :=
  match _as_obj json_loads message_value with
  | VNone => Return None
  | obj =>
      p <- _payload obj ;;
      op <- py_get p "op" ;;
      after <- py_get p "after" ;;
      before <- py_get p "before" ;;
      match select_row after before with
      | None => Return None
      | Some row => entity_row_cypher_in row
      end
  end.

(** Lines 139-175 of [_build_relationship_cypher] *)
Definition relationship_row_cypher_in (row : dict) : outcome (option string) :=
  let tenant_id := get row "tenant_id" in
  let rel_type := get row "relationship_type" in
  let rel_id := get row "id" in
  let from_id := get row "from_merged_entity_id" in
  let to_id := get row "to_merged_entity_id" in
  let from_type := get row "from_entity_type" in
  let to_type := get row "to_entity_type" in
  let data := py_or (get row "data") (VDict []) in
  if negb (truthy tenant_id) || negb (truthy rel_type) || negb (truthy rel_id)
     || negb (truthy from_id) || negb (truthy to_id)
     || negb (truthy from_type) || negb (truthy to_type)
  then Return None
  else
    let data := parse_data json_loads data in
    id_text <- str_in run rel_id ;;
    tenant_text <- str_in run tenant_id ;;
    let props : dict := [] in
    let props := dict_set "id" (VStr id_text) props in
    let props := dict_set "tenant_id" (VStr tenant_text) props in
    let props := copy_known relationship_known row props in
    let props := merge_data data props in
    from_label <- str_in run from_type ;;
    from_text <- str_in run from_id ;;
    from_literal <- _cypher_literal_in run (call_depth run) (VStr from_text) ;;
    from_tenant <- str_in run tenant_id ;;
    from_tenant_literal <- _cypher_literal_in run (call_depth run) (VStr from_tenant) ;;
    to_label <- str_in run to_type ;;
    to_text <- str_in run to_id ;;
    to_literal <- _cypher_literal_in run (call_depth run) (VStr to_text) ;;
    to_tenant <- str_in run tenant_id ;;
    to_tenant_literal <- _cypher_literal_in run (call_depth run) (VStr to_tenant) ;;
    rel_label <- str_in run rel_type ;;
    key_id <- dict_index props "id" ;;
    key_id_literal <- _cypher_literal_in run (call_depth run) key_id ;;
    key_tenant <- dict_index props "tenant_id" ;;
    key_tenant_literal <- _cypher_literal_in run (call_depth run) key_tenant ;;
    sets <- _set_props_in run "r" props None ;;
    Return (Some (strip (
      relationship_template from_label from_literal to_label to_literal
                            from_tenant_literal rel_label key_id_literal key_tenant_literal
                            sets))).

(** [_build_relationship_cypher], lines 127-175 *)
Definition _build_relationship_cypher_in (message_value : message) : outcome (option string) :=
  match _as_obj json_loads message_value with
  | VNone => Return None
  | obj =>
      p <- _payload obj ;;
      after <- py_get p "after" ;;
      before <- py_get p "before" ;;
      match select_row after before with
      | None => Return None
      | Some row => relationship_row_cypher_in row
      end
  end.

(** [transform_merged_entity], lines 178-188 *)
Definition transform_merged_entity_in (messages : list message) : outcome (list record) :=
  transform_loop _build_entity_cypher_in messages [].

(** [transform_merged_relationship], lines 191-201 *)
Definition transform_merged_relationship_in (messages : list message) : outcome (list record) :=
  transform_loop _build_relationship_cypher_in messages [].

End LimitedBuilders.

(** What an interpreter can write.  [literal_fits] says that
    [_cypher_literal] meets no limit on [v], [json.dumps] included. *)
Definition str_fits (run : interpreter) (v : value) : bool :=
  match str_error run v with
  | None => true
  | Some _ => false
  end.

Fixpoint literal_fits (run : interpreter) (depth : nat) (v : value) : bool :=
  match depth with
  | O => false
  | S depth =>
      match v with
      | VNone | VBool _ | VStr _ => true
      | VInt _ | VFloat _ => str_fits run v
      | VList l => forallb (literal_fits run depth) l
      | VDict _ => match dumps_error run v with None => true | Some _ => false end
      end
  end.

Definition props_fit (run : interpreter) (props : dict) : bool :=
  forallb (fun kv => literal_fits run (call_depth run) (snd kv)) props.

(** A row whose columns, as a builder uses them, are within the limits. *)
Definition entity_row_fits (json_loads : string -> option value) (run : interpreter)
    (row : dict) : bool :=
  str_fits run (get row "id") && str_fits run (get row "tenant_id")
  && str_fits run (get row "entity_type")
  && props_fit run (entity_props row (row_data json_loads row)).

Definition relationship_row_fits (json_loads : string -> option value) (run : interpreter)
    (row : dict) : bool :=
  str_fits run (get row "id") && str_fits run (get row "tenant_id")
  && str_fits run (get row "from_entity_type")
  && str_fits run (get row "from_merged_entity_id")
  && str_fits run (get row "to_entity_type")
  && str_fits run (get row "to_merged_entity_id")
  && str_fits run (get row "relationship_type")
  && props_fit run (relationship_props row (row_data json_loads row)).

(** The row a message comes down to, when it decodes to a mapping that
    holds one. *)
Definition effective_row (json_loads : string -> option value) (m : message) : option dict :=
  match _as_obj json_loads m with
  | VDict o =>
      match _payload (VDict o) with
      | Return (VDict p) => select_row (get p "after") (get p "before")
      | _ => None
      end
  | _ => None
  end.

Definition message_fits (json_loads : string -> option value) (run : interpreter)
    (m : message) : bool :=
  match effective_row json_loads m with
  | Some row => entity_row_fits json_loads run row && relationship_row_fits json_loads run row
  | None => true
  end.

(** A character read in front of the text a reader returns. *)
Definition cons_to (c : ascii) (r : option (string * string)) : option (string * string) :=
  match r with
  | Some (body, rest) => Some (String c body, rest)
  | None => None
  end.

(** ** A reference decoder

    The closed examples below need one concrete [json.loads].  [RefJson.loads]
    decodes JSON text the way Python does on the fragment without fractions
    and exponents (it reports those as an error) and with [\u] escapes below
    256. *)
Module RefJson.

Definition is_ws (c : ascii) : bool :=
  (ord c =? 32)%nat || (ord c =? 9)%nat || (ord c =? 10)%nat || (ord c =? 13)%nat.

Fixpoint skip_ws (s : string) : string :=
  match s with
  | EmptyString => EmptyString
  | String c t => if is_ws c then skip_ws t else s
  end.

Fixpoint strip_prefix (p s : string) : option string :=
  match p, s with
  | EmptyString, _ => Some s
  | String a p', String b s' => if Ascii.eqb a b then strip_prefix p' s' else None
  | String _ _, EmptyString => None
  end.

Definition hex_val (c : ascii) : option nat :=
  if in_range 48 57 c then Some (ord c - 48)%nat
  else if in_range 97 102 c then Some (ord c - 87)%nat
  else if in_range 65 70 c then Some (ord c - 55)%nat
  else None.

Definition simple_escape (e : ascii) : option ascii :=
  if (ord e =? 34)%nat || (ord e =? 92)%nat || (ord e =? 47)%nat then Some e
  else if Ascii.eqb e "b" then Some (chr 8)
  else if Ascii.eqb e "f" then Some (chr 12)
  else if Ascii.eqb e "n" then Some (chr 10)
  else if Ascii.eqb e "r" then Some (chr 13)
  else if Ascii.eqb e "t" then Some (chr 9)
  else None.

(** The body of a string, read after its opening quote. *)
Fixpoint read_string (s : string) : option (string * string) :=
  match s with
  | EmptyString => None
  | String c t =>
      if (ord c =? 34)%nat then Some (EmptyString, t)
      else if (ord c =? 92)%nat then
        match t with
        | EmptyString => None
        | String e t' =>
            match simple_escape e with
            | Some ch => cons_to ch (read_string t')
            | None =>
                match t' with
                | String h1 (String h2 (String h3 (String h4 t''))) =>
                    match hex_val h1, hex_val h2, hex_val h3, hex_val h4 with
                    | Some 0%nat, Some 0%nat, Some a, Some b =>
                        if Ascii.eqb e "u" then cons_to (chr (16 * a + b)) (read_string t'')
                        else None
                    | _, _, _, _ => None
                    end
                | _ => None
                end
            end
        end
      else if (ord c <? 32)%nat then None
      else cons_to c (read_string t)
  end.

Fixpoint read_digits (s : string) (acc : Z) : Z * string :=
  match s with
  | EmptyString => (acc, s)
  | String c t =>
      if in_range 48 57 c then read_digits t (10 * acc + Z.of_nat (ord c - 48))%Z
      else (acc, s)
  end.

Definition not_fraction (r : Z * string) : option (Z * string) :=
  match snd r with
  | String c _ =>
      if Ascii.eqb c "." || Ascii.eqb c "e" || Ascii.eqb c "E" then None else Some r
  | EmptyString => Some r
  end.

Definition read_nat (s : string) : option (Z * string) :=
  match s with
  | String c t =>
      if Ascii.eqb c "0" then not_fraction (0%Z, t)
      else if in_range 49 57 c then not_fraction (read_digits s 0%Z)
      else None
  | EmptyString => None
  end.

Definition read_scalar (s : string) : option (value * string) :=
  match strip_prefix "null" s with Some r => Some (VNone, r) | None =>
  match strip_prefix "true" s with Some r => Some (VBool true, r) | None =>
  match strip_prefix "false" s with Some r => Some (VBool false, r) | None =>
  match strip_prefix "NaN" s with Some r => Some (VFloat "nan", r) | None =>
  match strip_prefix "Infinity" s with Some r => Some (VFloat "inf", r) | None =>
  match strip_prefix "-Infinity" s with Some r => Some (VFloat "-inf", r) | None =>
  match s with
  | String "-" t =>
      match read_nat t with
      | Some (n, r) => Some (VInt (- n), r)
      | None => None
      end
  | _ =>
      match read_nat s with
      | Some (n, r) => Some (VInt n, r)
      | None => None
      end
  end end end end end end end.

Fixpoint read_value (fuel : nat) (s : string) : option (value * string) :=
  match fuel with
  | O => None
  | S fuel =>
      match skip_ws s with
      | EmptyString => None
      | String c t =>
          if Ascii.eqb c "[" then
            match skip_ws t with
            | String "]" r => Some (VList [], r)
            | _ => read_elements fuel t []
            end
          else if Ascii.eqb c "{" then
            match skip_ws t with
            | String "}" r => Some (VDict [], r)
            | _ => read_members fuel t []
            end
          else if (ord c =? 34)%nat then
            match read_string t with
            | Some (body, r) => Some (VStr body, r)
            | None => None
            end
          else read_scalar (String c t)
      end
  end
with read_elements (fuel : nat) (s : string) (acc : list value) : option (value * string) :=
  match fuel with
  | O => None
  | S fuel =>
      match read_value fuel s with
      | Some (v, r) =>
          match skip_ws r with
          | String "," r' => read_elements fuel r' (acc ++ [v])%list
          | String "]" r' => Some (VList (acc ++ [v])%list, r')
          | _ => None
          end
      | None => None
      end
  end
with read_members (fuel : nat) (s : string) (acc : dict) : option (value * string) :=
  match fuel with
  | O => None
  | S fuel =>
      match skip_ws s with
      | String q t =>
          if (ord q =? 34)%nat then
            match read_string t with
            | Some (k, r) =>
                match skip_ws r with
                | String ":" r' =>
                    match read_value fuel r' with
                    | Some (v, r'') =>
                        match skip_ws r'' with
                        | String "," r3 => read_members fuel r3 (dict_set k v acc)
                        | String "}" r3 => Some (VDict (dict_set k v acc), r3)
                        | _ => None
                        end
                    | None => None
                    end
                | _ => None
                end
            | None => None
            end
          else None
      | EmptyString => None
      end
  end.

Definition loads (s : string) : option value :=
  match read_value (S (String.length s)) s with
  | Some (v, r) => if is_empty (skip_ws r) then Some v else None
  | None => None
  end.

End RefJson.

(** ** A reference interpreter

    The closed examples need one concrete interpreter.  [RefInterp.python]
    cannot write an integer of more than 4300 digits ([ValueError]), nor a
    value nested more than 100 deep ([RecursionError]), and allows 100
    nested calls of [_cypher_literal].  CPython with its default settings
    writes whatever this interpreter writes, and raises [RecursionError]
    on a list nested 600 deep, as this one does. *)
Module RefInterp.

Definition digits (z : Z) : nat := String.length (str_of_Z (Z.abs z)).

Fixpoint long_int (v : value) : bool :=
  match v with
  | VInt z => (4300 <? digits z)%nat
  | VList l => existsb long_int l
  | VDict d => existsb (fun kv => long_int (snd kv)) d
  | _ => false
  end.

Fixpoint nesting (v : value) : nat :=
  match v with
  | VList l => S (fold_right (fun x n => Nat.max (nesting x) n) 0 l)
  | VDict d => S (fold_right (fun kv n => Nat.max (nesting (snd kv)) n) 0 d)
  | _ => 0
  end.

Definition error_of (v : value) : option exn :=
  if long_int v then Some ValueError
  else if (100 <? nesting v)%nat then Some RecursionError
  else None.

Definition python : interpreter :=
  {| call_depth := 100; str_error := error_of; dumps_error := error_of |}.

End RefInterp.

(** A list nested [n] deep around [v]. *)
Definition nested (n : nat) (v : value) : value := Nat.iter n (fun x => VList [x]) v.

(** ** Notions used by the statements *)

Definition quoted (s : string) : string := dquote ++ s ++ dquote.

(** [str.isalpha], [str.isdigit] and [str.isnumeric] on one character:
    the letters, the digits (the superscripts [178], [179], [185] too) and
    the numeric characters (the digits and the fractions [188]-[190]). *)
Definition char_isalpha (c : ascii) : bool :=
  in_range 65 90 c || in_range 97 122 c
  || (ord c =? 170)%nat || (ord c =? 181)%nat || (ord c =? 186)%nat
  || in_range 192 214 c || in_range 216 246 c || in_range 248 255 c.

Definition char_isdigit (c : ascii) : bool :=
  in_range 48 57 c || in_range 178 179 c || (ord c =? 185)%nat.

Definition char_isnumeric (c : ascii) : bool :=
  char_isdigit c || in_range 188 190 c.

(** The claim's words: a key composed solely of letters, digits and
    underscores. *)
Definition letters_digits_underscores (k : string) : bool :=
  str_forall (fun c => char_isalpha c || char_isdigit c || Ascii.eqb c "_") k.

(** A key composed solely of alphanumeric characters and underscores,
    alphanumeric being what [str.isalnum] accepts: a letter, a digit or
    another numeric character. *)
Definition identifier_chars (k : string) : bool :=
  str_forall (fun c => char_isalnum c || Ascii.eqb c "_") k.

(** A key with at least one alphanumeric character. *)
Definition has_alnum (k : string) : bool := str_exists char_isalnum k.

(** The entries of [props] a reading of the property-set rule keeps, for a
    given test on keys. *)
Definition kept (ok : string -> bool) (props : dict) (skip : list string) : dict :=
  filter (fun kv => negb (in_set (fst kv) skip) && ok (fst kv)) props.

Definition clauses_of (var : string) (items : dict) : list string :=
  map (fun kv => set_clause var (fst kv) (snd kv)) items.

(** The string literal of the statement grammar, read back: a single quote,
    then characters up to the closing quote, a backslash standing for the
    character after it ([\\], [\'], and the grammar's other one-letter
    escapes).  The result is the text and what follows the literal. *)
Definition unescape (e : ascii) : option ascii :=
  if Ascii.eqb e "\" || Ascii.eqb e "'" || (ord e =? 34)%nat then Some e
  else if Ascii.eqb e "b" || Ascii.eqb e "B" then Some (chr 8)
  else if Ascii.eqb e "f" || Ascii.eqb e "F" then Some (chr 12)
  else if Ascii.eqb e "n" || Ascii.eqb e "N" then Some (chr 10)
  else if Ascii.eqb e "r" || Ascii.eqb e "R" then Some (chr 13)
  else if Ascii.eqb e "t" || Ascii.eqb e "T" then Some (chr 9)
  else None.

Fixpoint read_literal_body (s : string) : option (string * string) :=
  match s with
  | EmptyString => None
  | String c t =>
      if Ascii.eqb c "'" then Some (EmptyString, t)
      else if Ascii.eqb c "\" then
        match t with
        | EmptyString => None
        | String e t' =>
            match unescape e with
            | Some ch => cons_to ch (read_literal_body t')
            | None => None
            end
        end
      else cons_to c (read_literal_body t)
  end.

Definition read_string_literal (s : string) : option (string * string) :=
  match s with
  | String c t => if Ascii.eqb c "'" then read_literal_body t else None
  | EmptyString => None
  end.

(** The rows of the two end-to-end scenarios, and an envelope holding a
    row as its [after] snapshot. *)
Definition ada_row : dict :=
  [("id", VStr "e1"); ("tenant_id", VStr "t1"); ("entity_type", VStr "Person");
   ("data", VDict [("name", VStr "Ada")])].

Definition knows_row : dict :=
  [("tenant_id", VStr "t1"); ("relationship_type", VStr "KNOWS"); ("id", VStr "r1");
   ("from_merged_entity_id", VStr "e1"); ("to_merged_entity_id", VStr "e2");
   ("from_entity_type", VStr "Person"); ("to_entity_type", VStr "Person")].

Definition after_event (row : dict) : dict := [("after", VDict row)].

Definition delete_event (row : dict) : dict :=
  [("op", VStr "d"); ("before", VDict row); ("after", VNone)].

Definition ada_json : string :=
  "{" ++ quoted "payload" ++ ": {" ++ quoted "op" ++ ": " ++ quoted "c" ++ ", "
  ++ quoted "before" ++ ": null, "
  ++ quoted "after" ++ ": {" ++ quoted "id" ++ ": " ++ quoted "e1" ++ ", "
  ++ quoted "tenant_id" ++ ": " ++ quoted "t1" ++ ", "
  ++ quoted "entity_type" ++ ": " ++ quoted "Person" ++ ", "
  ++ quoted "data" ++ ": {" ++ quoted "name" ++ ": " ++ quoted "Ada" ++ "}}}}".

Definition lines (l : list string) : string := join newline l.

(** The value a key has after [data] is flattened over the row's own. *)
Definition overlaid (k : string) (d : dict) (own : value) : value :=
  match dict_get k d with
  | Some v => v
  | None => own
  end.

(** ** Notions used by the further properties *)

(** The statement a builder's outcome carries, as a list of at most one. *)
Definition built (r : outcome (option string)) : list string :=
  match r with
  | Return (Some text) => [text]
  | _ => []
  end.

Definition to_record (text : string) : record := mk_record text None.

(** A message that decodes to a document which is neither null nor a
    mapping. *)
Definition non_mapping (json_loads : string -> option value) (m : message) : Prop :=
  _as_obj json_loads m <> VNone /\ is_dict (_as_obj json_loads m) = false.

(** The two characters [_cypher_escape_string] rewrites. *)
Definition is_special (c : ascii) : bool := Ascii.eqb c "\" || Ascii.eqb c "'".

Fixpoint str_count (f : ascii -> bool) (s : string) : nat :=
  match s with
  | EmptyString => 0
  | String c t => (if f c then 1 else 0) + str_count f t
  end.

(** The values [_cypher_literal] writes in native form: null, booleans,
    integers, texts and lists of these. *)
Fixpoint plain (v : value) : bool :=
  match v with
  | VNone | VBool _ | VInt _ | VStr _ => true
  | VList l => forallb plain l
  | VFloat _ | VDict _ => false
  end.

(** A reader of native literals: [NULL], [true], [false], a decimal
    integer, a quoted text, or a bracketed list with items separated by a
    comma and a space.  It returns the value and what follows it. *)
Definition digit_of (c : ascii) : option (Decimal.uint -> Decimal.uint) :=
  if Ascii.eqb c "0" then Some Decimal.D0
  else if Ascii.eqb c "1" then Some Decimal.D1
  else if Ascii.eqb c "2" then Some Decimal.D2
  else if Ascii.eqb c "3" then Some Decimal.D3
  else if Ascii.eqb c "4" then Some Decimal.D4
  else if Ascii.eqb c "5" then Some Decimal.D5
  else if Ascii.eqb c "6" then Some Decimal.D6
  else if Ascii.eqb c "7" then Some Decimal.D7
  else if Ascii.eqb c "8" then Some Decimal.D8
  else if Ascii.eqb c "9" then Some Decimal.D9
  else None.

Definition starts_with_digit (s : string) : bool :=
  match s with
  | String c _ => match digit_of c with Some _ => true | None => false end
  | EmptyString => false
  end.

Fixpoint read_uint (s : string) : Decimal.uint * string :=
  match s with
  | EmptyString => (Decimal.Nil, s)
  | String c t =>
      match digit_of c with
      | Some digit => (digit (fst (read_uint t)), snd (read_uint t))
      | None => (Decimal.Nil, s)
      end
  end.

Definition read_number (negative : bool) (s : string) : option (value * string) :=
  match fst (read_uint s) with
  | Decimal.Nil => None
  | d => Some (VInt (Z.of_int (if negative then Decimal.Neg d else Decimal.Pos d)),
               snd (read_uint s))
  end.

Definition read_word (word : string) (v : value) (s : string) : option (value * string) :=
  match RefJson.strip_prefix word s with
  | Some r => Some (v, r)
  | None => None
  end.

Definition read_atom (s : string) : option (value * string) :=
  match s with
  | EmptyString => None
  | String c t =>
      if Ascii.eqb c "'" then
        match read_literal_body t with
        | Some (body, r) => Some (VStr body, r)
        | None => None
        end
      else if Ascii.eqb c "N" then read_word "ULL" VNone t
      else if Ascii.eqb c "t" then read_word "rue" (VBool true) t
      else if Ascii.eqb c "f" then read_word "alse" (VBool false) t
      else if Ascii.eqb c "-" then read_number true t
      else read_number false s
  end.

Fixpoint read_native (fuel : nat) (s : string) : option (value * string) :=
  match fuel with
  | O => None
  | S fuel =>
      match s with
      | EmptyString => None
      | String c t =>
          if Ascii.eqb c "[" then
            match t with
            | EmptyString => None
            | String c' r =>
                if Ascii.eqb c' "]" then Some (VList [], r)
                else match read_items fuel t with
                     | Some (items, r') => Some (VList items, r')
                     | None => None
                     end
            end
          else read_atom s
      end
  end
with read_items (fuel : nat) (s : string) : option (list value * string) :=
  match fuel with
  | O => None
  | S fuel =>
      match read_native fuel s with
      | Some (v, String c r) =>
          if Ascii.eqb c "]" then Some ([v], r)
          else if Ascii.eqb c "," then
            match r with
            | String c' r' =>
                if Ascii.eqb c' " " then
                  match read_items fuel r' with
                  | Some (items, r'') => Some (v :: items, r'')
                  | None => None
                  end
                else None
            | EmptyString => None
            end
          else None
      | _ => None
      end
  end.

(** Fuel that suffices to read a value back. *)
Fixpoint weight (v : value) : nat :=
  match v with
  | VList l => S ((fix weights (l : list value) : nat :=
                     match l with
                     | [] => 0
                     | x :: t => S (weight x + weights t)
                     end) l)
  | _ => 1
  end.

(** The same measure on a list of items. *)
Fixpoint weights (l : list value) : nat :=
  match l with
  | [] => 0
  | x :: t => S (weight x + weights t)
  end.

(** What it means for a value to read back from its literal. *)
Definition reads_back (v : value) : Prop :=
  plain v = true ->
  forall fuel rest,
    weight v <= fuel -> starts_with_digit rest = false ->
    read_native fuel (_cypher_literal v ++ rest) = Some (v, rest).

(** The statements a row gives when nothing is flattened over its own
    columns, spelled out: the merge keys are the row's [id] and [tenant_id]
    as text, and there is one clause for each of [id], [tenant_id]
    ([entity_type]) and then for each known column the row has. *)
Definition known_clauses (var : string) (known : list string) (row : dict) : list string :=
  map (fun k => "SET " ++ var ++ "." ++ k ++ " = " ++ _cypher_literal (get row k))
      (filter (fun k => dict_mem k row) known).

Definition quote (v : value) : string := "'" ++ _cypher_escape_string (py_str v) ++ "'".

Definition entity_text_of_row (row : dict) : string :=
  "MERGE (e:" ++ py_str (get row "entity_type")
  ++ " {id: " ++ quote (get row "id") ++ ", tenant_id: " ++ quote (get row "tenant_id") ++ "})"
  ++ newline
  ++ join newline (List.app [ "SET e.id = " ++ quote (get row "id");
                              "SET e.tenant_id = " ++ quote (get row "tenant_id");
                              "SET e.entity_type = " ++ quote (get row "entity_type") ]
                            (known_clauses "e" entity_known row))
  ++ newline ++ "RETURN e;".

Definition relationship_text_of_row (row : dict) : string :=
  "MERGE (a:" ++ py_str (get row "from_entity_type")
  ++ " {id: " ++ quote (get row "from_merged_entity_id")
  ++ ", tenant_id: " ++ quote (get row "tenant_id") ++ "})" ++ newline
  ++ "MERGE (b:" ++ py_str (get row "to_entity_type")
  ++ " {id: " ++ quote (get row "to_merged_entity_id")
  ++ ", tenant_id: " ++ quote (get row "tenant_id") ++ "})" ++ newline
  ++ "MERGE (a)-[r:" ++ py_str (get row "relationship_type")
  ++ " {id: " ++ quote (get row "id") ++ ", tenant_id: " ++ quote (get row "tenant_id")
  ++ "}]->(b)" ++ newline
  ++ join newline (List.app [ "SET r.id = " ++ quote (get row "id");
                              "SET r.tenant_id = " ++ quote (get row "tenant_id") ]
                            (known_clauses "r" relationship_known row))
  ++ newline ++ "RETURN r;".

(** * Properties *)

(** ** Text *)

Lemma append_assoc (a b c : string) : (a ++ b) ++ c = a ++ b ++ c.
Proof. induction a as [|x a IH]; simpl; [reflexivity | now rewrite IH]. Qed.

Lemma append_empty_r (a : string) : a ++ EmptyString = a.
Proof. induction a as [|x a IH]; simpl; [reflexivity | now rewrite IH]. Qed.

Lemma is_empty_app (a b : string) : is_empty (a ++ b) = is_empty a && is_empty b.
Proof. destruct a; reflexivity. Qed.

Lemma rstrip_app_nonempty (s t : string) :
  is_empty (rstrip t) = false -> is_empty (rstrip (s ++ t)) = false.
Proof.
  intros Ht. induction s as [|c s IH]; simpl; [exact Ht|].
  rewrite IH, andb_false_r. reflexivity.
Qed.

Lemma rstrip_app (s t : string) :
  is_empty (rstrip t) = false -> rstrip (s ++ t) = s ++ rstrip t.
Proof.
  intros Ht. induction s as [|c s IH]; simpl; [reflexivity|].
  rewrite (rstrip_app_nonempty s t Ht), andb_false_r, IH. reflexivity.
Qed.

Ltac rstrip_inward :=
  repeat (rewrite rstrip_app
            by (repeat (first [ reflexivity | apply rstrip_app_nonempty ]))).

(** What [.strip()] leaves of the two f-strings: the newline after the
    opening quotes and the one before the closing quotes go, the rest
    stays whatever the fields hold. *)
Lemma strip_entity_template (label key_id key_tenant sets : string) :
  strip (entity_template label key_id key_tenant sets)
  = "MERGE (e:" ++ label ++ " {id: " ++ key_id ++ ", tenant_id: " ++ key_tenant ++ "})"
    ++ newline ++ sets ++ newline ++ "RETURN e;".
Proof.
  unfold strip, entity_template.
  change (lstrip (newline ++ "MERGE (e:" ++ ?r)) with ("MERGE (e:" ++ r).
  rstrip_inward. reflexivity.
Qed.

Lemma strip_relationship_template
    (from_type from_id to_type to_id tenant rel_type key_id key_tenant sets : string) :
  strip (relationship_template from_type from_id to_type to_id tenant rel_type
                               key_id key_tenant sets)
  = "MERGE (a:" ++ from_type ++ " {id: " ++ from_id ++ ", tenant_id: " ++ tenant ++ "})"
    ++ newline
    ++ "MERGE (b:" ++ to_type ++ " {id: " ++ to_id ++ ", tenant_id: " ++ tenant ++ "})"
    ++ newline
    ++ "MERGE (a)-[r:" ++ rel_type ++ " {id: " ++ key_id ++ ", tenant_id: " ++ key_tenant
    ++ "}]->(b)" ++ newline ++ sets ++ newline ++ "RETURN r;".
Proof.
  unfold strip, relationship_template.
  change (lstrip (newline ++ "MERGE (a:" ++ ?r)) with ("MERGE (a:" ++ r).
  rstrip_inward. reflexivity.
Qed.

(** The built-ins on a sample, as the interpreter prints them. *)
Example builtins_sample :
  let odd := "x" ++ dquote ++ "y\z" ++ newline ++ String (chr 127) (String (chr 233) (String (chr 1) EmptyString)) in
  json_dumps (VDict [("a", VList [VInt 1; VFloat "2.5"; VNone; VBool true; VStr odd]);
                     ("b", VDict [])])
  = "{" ++ quoted "a" ++ ":[1,2.5,null,true," ++ quoted ("x\" ++ dquote ++ "y\\z\n\u007f\u00e9\u0001")
    ++ "]," ++ quoted "b" ++ ":{}}"
  /\ py_str (VDict [("a", VStr "it's"); ("b", VStr ("q" ++ dquote));
                    ("c", VStr ("both'" ++ dquote));
                    ("d", VList [VFloat "1.0"; VNone; VBool true; VInt (-12);
                                 VStr (String (chr 127) (String (chr 160) (String (chr 173)
                                         (String (chr 233) (newline ++ String (chr 9) "\")))))])])
     = "{'a': " ++ quoted "it's" ++ ", 'b': 'q" ++ dquote ++ "', 'c': 'both\'" ++ dquote
       ++ "', 'd': [1.0, None, True, -12, '\x7f\xa0\xad" ++ String (chr 233) "\n\t\\']}"
  /\ strip (newline ++ " ab " ++ newline) = "ab"
  /\ py_str (VInt 0) = "0"
  /\ json_dumps (VList [VFloat "nan"; VFloat "-inf"; VFloat "1e+22"]) = "[NaN,-Infinity,1e+22]".
Proof. repeat split; vm_compute; reflexivity. Qed.

Example refjson_sample :
  RefJson.loads "[1]" = Some (VList [VInt 1])
  /\ RefJson.loads (" {" ++ quoted "a" ++ ":1," ++ quoted "a" ++ ": -20 , " ++ quoted "b\nA"
                    ++ ":[null,true, [], {}]} ")
     = Some (VDict [("a", VInt (-20));
                    ("b" ++ newline ++ "A", VList [VNone; VBool true; VList []; VDict []])])
  /\ RefJson.loads "{oops" = None
  /\ RefJson.loads "[1,]" = None
  /\ RefJson.loads "01" = None
  /\ RefJson.loads "-0" = Some (VInt 0)
  /\ RefJson.loads "[1] x" = None
  /\ RefJson.loads EmptyString = None
  /\ RefJson.loads (quoted "payload") = Some (VStr "payload")
  /\ RefJson.loads "null" = Some VNone.
Proof. repeat split; vm_compute; reflexivity. Qed.

(** ** Dictionaries *)

Lemma dict_get_set_same (k : string) (v : value) (d : dict) :
  dict_get k (dict_set k v d) = Some v.
Proof.
  induction d as [|[k' v'] d IH]; simpl.
  - now rewrite String.eqb_refl.
  - destruct (String.eqb k k') eqn:E; simpl; rewrite E; [reflexivity | exact IH].
Qed.

Lemma dict_get_set_other (k k' : string) (v : value) (d : dict) :
  k <> k' -> dict_get k (dict_set k' v d) = dict_get k d.
Proof.
  intros Hne. induction d as [|[k0 v0] d IH]; simpl.
  - apply String.eqb_neq in Hne. now rewrite Hne.
  - destruct (String.eqb k' k0) eqn:E; simpl.
    + apply String.eqb_eq in E. subst k0.
      apply String.eqb_neq in Hne. now rewrite Hne.
    + destruct (String.eqb k k0); [reflexivity | exact IH].
Qed.

Lemma dict_get_set (k k' : string) (v : value) (d : dict) :
  dict_get k (dict_set k' v d) = if String.eqb k k' then Some v else dict_get k d.
Proof.
  destruct (String.eqb_spec k k') as [->|Hne].
  - apply dict_get_set_same.
  - now apply dict_get_set_other.
Qed.

Lemma dict_get_absent (k : string) (d : dict) :
  ~ In k (keys d) -> dict_get k d = None.
Proof.
  induction d as [|[k' v'] d IH]; simpl; intros Hn; [reflexivity|].
  destruct (String.eqb_spec k k') as [->|Hne]; [tauto|].
  apply IH. tauto.
Qed.

Lemma dict_get_copy_known (k : string) (ks : list string) (row props : dict) :
  dict_get k (copy_known ks row props)
  = if in_set k ks && dict_mem k row then Some (get row k) else dict_get k props.
Proof.
  unfold copy_known. revert props.
  induction ks as [|k0 ks IH]; intros props; simpl; [reflexivity|].
  rewrite IH. destruct (String.eqb_spec k k0) as [->|Hne]; simpl.
  - destruct (dict_mem k0 row) eqn:Hm.
    + rewrite andb_true_r, dict_get_set_same. now destruct (in_set k0 ks).
    + now rewrite andb_false_r.
  - destruct (in_set k ks && dict_mem k row); [reflexivity|].
    destruct (dict_mem k0 row); [now apply dict_get_set_other | reflexivity].
Qed.

Lemma dict_get_merge_data (k : string) (d props : dict) :
  NoDup (keys d) ->
  dict_get k (merge_data (VDict d) props)
  = match dict_get k d with
    | Some v => Some v
    | None => dict_get k props
    end.
Proof.
  simpl. revert props.
  induction d as [|[k0 v0] d IH]; intros props Hnd; simpl; [reflexivity|].
  inversion Hnd as [|? ? Hk0 Hd]; subst.
  rewrite (IH _ Hd), dict_get_set.
  destruct (String.eqb_spec k k0) as [->|Hne]; [|reflexivity].
  now rewrite (dict_get_absent k0 d Hk0).
Qed.

Lemma dict_mem_set (k k' : string) (v : value) (d : dict) :
  dict_mem k d = true -> dict_mem k (dict_set k' v d) = true.
Proof.
  unfold dict_mem. rewrite dict_get_set.
  now destruct (String.eqb k k').
Qed.

Lemma dict_mem_copy_known (k : string) (ks : list string) (row props : dict) :
  dict_mem k props = true -> dict_mem k (copy_known ks row props) = true.
Proof.
  unfold dict_mem. rewrite dict_get_copy_known.
  now destruct (in_set k ks && dict_mem k row).
Qed.

Lemma dict_mem_merge_data (k : string) (data : value) (props : dict) :
  dict_mem k props = true -> dict_mem k (merge_data data props) = true.
Proof.
  destruct data as [| | | | |l|d]; simpl; try easy.
  revert props. induction d as [|[k0 v0] d IH]; intros props Hm; simpl; [exact Hm|].
  apply IH. now apply dict_mem_set.
Qed.

Lemma dict_index_mem (d : dict) (k : string) :
  dict_mem k d = true -> dict_index d k = Return (get d k).
Proof.
  unfold dict_mem, dict_index, get. now destruct (dict_get k d).
Qed.

Lemma entity_props_has (row : dict) (data : value) (k : string) :
  In k ["id"; "tenant_id"; "entity_type"] ->
  dict_mem k (entity_props row data) = true.
Proof.
  intros Hk. unfold entity_props.
  apply dict_mem_merge_data, dict_mem_copy_known.
  simpl in Hk. decompose [or] Hk; subst; try contradiction; reflexivity.
Qed.

Lemma relationship_props_has (row : dict) (data : value) (k : string) :
  In k ["id"; "tenant_id"] ->
  dict_mem k (relationship_props row data) = true.
Proof.
  intros Hk. unfold relationship_props.
  apply dict_mem_merge_data, dict_mem_copy_known.
  simpl in Hk. decompose [or] Hk; subst; try contradiction; reflexivity.
Qed.

(** ** The builders, step by step *)

Section BuilderFacts.

Variable json_loads : string -> option value.

(** [_payload] on a dict never raises and returns a dict. *)
Lemma payload_dict (o : dict) :
  exists p, _payload (VDict o) = Return (VDict p).
Proof.
  unfold _payload; simpl. unfold dict_mem, dict_index.
  destruct (dict_get "payload" o) as [v|]; simpl; [|now exists o].
  destruct v; simpl; eauto.
Qed.

Lemma entity_row_cypher_eq (row : dict) :
  entity_row_cypher json_loads row
  = if entity_fields_ok row
    then let props := entity_props row (row_data json_loads row) in
         Return (Some (strip (entity_template
                                (py_str (get row "entity_type"))
                                (_cypher_literal (get props "id"))
                                (_cypher_literal (get props "tenant_id"))
                                (_set_props "e" props None))))
    else Return None.
Proof.
  unfold entity_row_cypher, entity_fields_ok.
  destruct (truthy (get row "id")), (truthy (get row "tenant_id")),
           (truthy (get row "entity_type")); simpl; try reflexivity.
  rewrite !dict_index_mem by (apply entity_props_has; simpl; tauto).
  reflexivity.
Qed.

Lemma relationship_row_cypher_eq (row : dict) :
  relationship_row_cypher json_loads row
  = if relationship_fields_ok row
    then let props := relationship_props row (row_data json_loads row) in
         Return (Some (strip (relationship_template
                                (py_str (get row "from_entity_type"))
                                (_cypher_literal (VStr (py_str (get row "from_merged_entity_id"))))
                                (py_str (get row "to_entity_type"))
                                (_cypher_literal (VStr (py_str (get row "to_merged_entity_id"))))
                                (_cypher_literal (VStr (py_str (get row "tenant_id"))))
                                (py_str (get row "relationship_type"))
                                (_cypher_literal (get props "id"))
                                (_cypher_literal (get props "tenant_id"))
                                (_set_props "r" props None))))
    else Return None.
Proof.
  unfold relationship_row_cypher, relationship_fields_ok.
  destruct (truthy (get row "tenant_id")), (truthy (get row "relationship_type")),
           (truthy (get row "id")), (truthy (get row "from_merged_entity_id")),
           (truthy (get row "to_merged_entity_id")), (truthy (get row "from_entity_type")),
           (truthy (get row "to_entity_type")); simpl; try reflexivity.
  rewrite !dict_index_mem by (apply relationship_props_has; simpl; tauto).
  reflexivity.
Qed.

(** Once the message is decoded to a dict, each builder is row selection
    followed by its row part. *)
Lemma build_entity_decoded (m : message) (o p : dict) :
  _as_obj json_loads m = VDict o ->
  _payload (VDict o) = Return (VDict p) ->
  _build_entity_cypher json_loads m
  = match select_row (get p "after") (get p "before") with
    | None => Return None
    | Some row => entity_row_cypher json_loads row
    end.
Proof.
  intros Ho Hp. unfold _build_entity_cypher. rewrite Ho, Hp. reflexivity.
Qed.

Lemma build_relationship_decoded (m : message) (o p : dict) :
  _as_obj json_loads m = VDict o ->
  _payload (VDict o) = Return (VDict p) ->
  _build_relationship_cypher json_loads m
  = match select_row (get p "after") (get p "before") with
    | None => Return None
    | Some row => relationship_row_cypher json_loads row
    end.
Proof.
  intros Ho Hp. unfold _build_relationship_cypher. rewrite Ho, Hp. reflexivity.
Qed.

End BuilderFacts.

(** ** Failures *)

(** Where [_as_obj] yields [None] or a dict, neither builder raises. *)
Lemma builders_return_on_mappings (json_loads : string -> option value) (m : message) :
  _as_obj json_loads m = VNone \/ (exists o, _as_obj json_loads m = VDict o) ->
  (exists r, _build_entity_cypher json_loads m = Return r)
  /\ (exists r, _build_relationship_cypher json_loads m = Return r).
Proof.
  intros [Hn|[o Ho]].
  - unfold _build_entity_cypher, _build_relationship_cypher. rewrite Hn. eauto.
  - destruct (payload_dict o) as [p Hp].
    rewrite (build_entity_decoded _ _ _ _ Ho Hp), (build_relationship_decoded _ _ _ _ Ho Hp).
    destruct (select_row (get p "after") (get p "before")) as [row|]; [|eauto].
    rewrite entity_row_cypher_eq, relationship_row_cypher_eq.
    destruct (entity_fields_ok row), (relationship_fields_ok row); eauto.
Qed.

(** C1 (as the code behaves).  A message whose text decodes to a JSON
    document that is neither null nor a mapping makes both builders raise:
    [_as_obj] hands the decoded number, string or list on, and [_payload]
    or the first [.get] fails on it.  The claim that every input yields a
    statement or null without an exception does not hold on these inputs. *)
Theorem non_mapping_document_raises
    (json_loads : string -> option value) (m : message) (v : value) :
  _as_obj json_loads m = v ->
  v <> VNone ->
  is_dict v = false ->
  (exists e, _build_entity_cypher json_loads m = Raise e)
  /\ (exists e, _build_relationship_cypher json_loads m = Raise e).
Proof.
  intros Hv Hnone Hdict.
  unfold _build_entity_cypher, _build_relationship_cypher. rewrite Hv.
  destruct v as [|b|z|r|s|l|d]; try contradiction; try discriminate;
    unfold _payload; simpl; eauto.
  - destruct (str_contains "payload" s); simpl; eauto.
  - destruct (existsb (py_eq_str "payload") l); simpl; eauto.
Qed.

Lemma non_mapping_document_raises_witness :
  _as_obj RefJson.loads (Bytes (Some "[1]")) = VList [VInt 1]
  /\ _build_entity_cypher RefJson.loads (Bytes (Some "[1]")) = Raise AttributeError
  /\ _build_relationship_cypher RefJson.loads (Bytes (Some "[1]")) = Raise AttributeError
  /\ _build_entity_cypher RefJson.loads (Obj (VStr "5")) = Raise TypeError
  /\ (exists e, _build_entity_cypher RefJson.loads (Bytes (Some "[1]")) = Raise e)
  /\ (exists e, _build_relationship_cypher RefJson.loads (Bytes (Some "[1]")) = Raise e).
Proof.
  split; [reflexivity|]. split; [reflexivity|]. split; [reflexivity|].
  split; [reflexivity|].
  apply (non_mapping_document_raises RefJson.loads (Bytes (Some "[1]")) (VList [VInt 1]));
    [reflexivity | discriminate | reflexivity].
Defined.

(** ** Row selection and required columns *)

(** C3.  In a decoded envelope, when [after] and [before] are both rows
    the builders work on [after]; when [after] is no row and [before] is
    one they work on [before]; when neither is a row both return null. *)
Theorem row_selection_prefers_after
    (json_loads : string -> option value) (m : message) (o p : dict) :
  _as_obj json_loads m = VDict o ->
  _payload (VDict o) = Return (VDict p) ->
  (forall a b, get p "after" = VDict a -> get p "before" = VDict b ->
     select_row (get p "after") (get p "before") = Some a
     /\ _build_entity_cypher json_loads m = entity_row_cypher json_loads a
     /\ _build_relationship_cypher json_loads m = relationship_row_cypher json_loads a)
  /\ (forall b, is_dict (get p "after") = false -> get p "before" = VDict b ->
     select_row (get p "after") (get p "before") = Some b
     /\ _build_entity_cypher json_loads m = entity_row_cypher json_loads b
     /\ _build_relationship_cypher json_loads m = relationship_row_cypher json_loads b)
  /\ (is_dict (get p "after") = false -> is_dict (get p "before") = false ->
     select_row (get p "after") (get p "before") = None
     /\ _build_entity_cypher json_loads m = Return None
     /\ _build_relationship_cypher json_loads m = Return None).
Proof.
  intros Ho Hp.
  rewrite (build_entity_decoded _ _ _ _ Ho Hp), (build_relationship_decoded _ _ _ _ Ho Hp).
  split; [|split].
  - intros a b Ha Hb. rewrite Ha, Hb. repeat split; reflexivity.
  - intros b Ha Hb. rewrite Hb.
    destruct (get p "after"); try discriminate; repeat split; reflexivity.
  - intros Ha Hb.
    destruct (get p "after"); try discriminate;
      destruct (get p "before"); try discriminate; repeat split; reflexivity.
Qed.

Lemma row_selection_prefers_after_witness :
  let both := [("op", VStr "u"); ("before", VDict knows_row); ("after", VDict ada_row)] in
  let gone := delete_event ada_row in
  let tomb := [("op", VStr "d"); ("after", VStr "x")] in
  (_as_obj RefJson.loads (Obj (VDict both)) = VDict both
   /\ _payload (VDict both) = Return (VDict both)
   /\ get both "after" = VDict ada_row /\ get both "before" = VDict knows_row
   /\ _build_entity_cypher RefJson.loads (Obj (VDict both))
      = entity_row_cypher RefJson.loads ada_row)
  /\ (_payload (VDict [("payload", VDict gone)]) = Return (VDict gone)
      /\ is_dict (get gone "after") = false /\ get gone "before" = VDict ada_row
      /\ _build_entity_cypher RefJson.loads (Obj (VDict [("payload", VDict gone)]))
         = entity_row_cypher RefJson.loads ada_row)
  /\ (is_dict (get tomb "after") = false /\ is_dict (get tomb "before") = false
      /\ _build_relationship_cypher RefJson.loads (Obj (VDict tomb)) = Return None).
Proof.
  intros both gone tomb.
  split; [|split].
  - repeat (split; [reflexivity|]).
    destruct (row_selection_prefers_after RefJson.loads (Obj (VDict both)) both both
                eq_refl eq_refl) as [Hboth _].
    exact (proj1 (proj2 (Hboth ada_row knows_row eq_refl eq_refl))).
  - repeat (split; [reflexivity|]).
    destruct (row_selection_prefers_after RefJson.loads
                (Obj (VDict [("payload", VDict gone)])) [("payload", VDict gone)] gone
                eq_refl eq_refl) as [_ [Hbefore _]].
    exact (proj1 (proj2 (Hbefore ada_row eq_refl eq_refl))).
  - repeat (split; [reflexivity|]).
    destruct (row_selection_prefers_after RefJson.loads (Obj (VDict tomb)) tomb tomb
                eq_refl eq_refl) as [_ [_ Hnone]].
    exact (proj2 (proj2 (Hnone eq_refl eq_refl))).
Defined.

(** C4.  For a decoded envelope with effective row [row], the entity
    builder returns a statement when [id], [tenant_id] and [entity_type]
    are all present and truthy, and null when any of them is missing or
    falsy; it raises in neither case. *)
Theorem entity_statement_needs_identity
    (json_loads : string -> option value) (m : message) (o p row : dict) :
  _as_obj json_loads m = VDict o ->
  _payload (VDict o) = Return (VDict p) ->
  select_row (get p "after") (get p "before") = Some row ->
  if truthy (get row "id") && truthy (get row "tenant_id") && truthy (get row "entity_type")
  then exists stmt, _build_entity_cypher json_loads m = Return (Some stmt)
  else _build_entity_cypher json_loads m = Return None.
Proof.
  intros Ho Hp Hrow.
  rewrite (build_entity_decoded _ _ _ _ Ho Hp), Hrow, entity_row_cypher_eq.
  unfold entity_fields_ok.
  destruct (truthy (get row "id") && truthy (get row "tenant_id")
            && truthy (get row "entity_type")); eauto.
Qed.

Lemma entity_statement_needs_identity_witness :
  let ok := after_event ada_row in
  let zero := after_event [("id", VInt 0); ("tenant_id", VStr "t1");
                           ("entity_type", VStr "Person")] in
  let untyped := after_event [("id", VStr "e1"); ("tenant_id", VStr "t1")] in
  (exists stmt, _build_entity_cypher RefJson.loads (Obj (VDict ok)) = Return (Some stmt))
  /\ _build_entity_cypher RefJson.loads (Obj (VDict zero)) = Return None
  /\ _build_entity_cypher RefJson.loads (Obj (VDict untyped)) = Return None.
Proof.
  intros ok zero untyped.
  split; [|split].
  - exact (entity_statement_needs_identity RefJson.loads (Obj (VDict ok)) ok ok ada_row
             eq_refl eq_refl eq_refl).
  - exact (entity_statement_needs_identity RefJson.loads (Obj (VDict zero)) zero zero _
             eq_refl eq_refl eq_refl).
  - exact (entity_statement_needs_identity RefJson.loads (Obj (VDict untyped)) untyped untyped _
             eq_refl eq_refl eq_refl).
Defined.

(** C5.  For a decoded envelope with effective row [row], the relationship
    builder returns a statement when the seven required columns are all
    present and truthy, and null when any of them is missing or falsy. *)
Theorem relationship_statement_needs_endpoints
    (json_loads : string -> option value) (m : message) (o p row : dict) :
  _as_obj json_loads m = VDict o ->
  _payload (VDict o) = Return (VDict p) ->
  select_row (get p "after") (get p "before") = Some row ->
  if truthy (get row "tenant_id") && truthy (get row "relationship_type")
     && truthy (get row "id") && truthy (get row "from_merged_entity_id")
     && truthy (get row "to_merged_entity_id") && truthy (get row "from_entity_type")
     && truthy (get row "to_entity_type")
  then exists stmt, _build_relationship_cypher json_loads m = Return (Some stmt)
  else _build_relationship_cypher json_loads m = Return None.
Proof.
  intros Ho Hp Hrow.
  rewrite (build_relationship_decoded _ _ _ _ Ho Hp), Hrow, relationship_row_cypher_eq.
  unfold relationship_fields_ok.
  match goal with |- if ?c then _ else _ => destruct c end; eauto.
Qed.

Lemma relationship_statement_needs_endpoints_witness :
  let ok := after_event knows_row in
  let dangling := after_event (dict_set "to_merged_entity_id" (VStr EmptyString) knows_row) in
  let untyped := after_event (tl knows_row) in
  (exists stmt, _build_relationship_cypher RefJson.loads (Obj (VDict ok)) = Return (Some stmt))
  /\ _build_relationship_cypher RefJson.loads (Obj (VDict dangling)) = Return None
  /\ _build_relationship_cypher RefJson.loads (Obj (VDict untyped)) = Return None.
Proof.
  intros ok dangling untyped.
  split; [|split].
  - exact (relationship_statement_needs_endpoints RefJson.loads (Obj (VDict ok)) ok ok knows_row
             eq_refl eq_refl eq_refl).
  - exact (relationship_statement_needs_endpoints RefJson.loads (Obj (VDict dangling))
             dangling dangling _ eq_refl eq_refl eq_refl).
  - exact (relationship_statement_needs_endpoints RefJson.loads (Obj (VDict untyped))
             untyped untyped _ eq_refl eq_refl eq_refl).
Defined.

(** ** The two end-to-end scenarios *)

(** C2.  For any envelope whose [after] snapshot is the row
    [{id: "e1", tenant_id: "t1", entity_type: "Person", data: {"name": "Ada"}}]
    the entity builder returns the statement that merges a node labelled
    [Person] keyed by [id = 'e1'] and [tenant_id = 't1'] and that has the
    clause setting [name = 'Ada']. *)
Theorem ada_entity_statement
    (json_loads : string -> option value) (m : message) (o p : dict) :
  _as_obj json_loads m = VDict o ->
  _payload (VDict o) = Return (VDict p) ->
  get p "after" = VDict ada_row ->
  _build_entity_cypher json_loads m
  = Return (Some (lines [ "MERGE (e:Person {id: 'e1', tenant_id: 't1'})";
                          "SET e.id = 'e1'";
                          "SET e.tenant_id = 't1'";
                          "SET e.entity_type = 'Person'";
                          "SET e.name = 'Ada'";
                          "RETURN e;" ])).
Proof.
  intros Ho Hp Hafter.
  rewrite (build_entity_decoded _ _ _ _ Ho Hp), Hafter.
  reflexivity.
Qed.

Lemma ada_entity_statement_witness :
  let stmt := lines [ "MERGE (e:Person {id: 'e1', tenant_id: 't1'})";
                      "SET e.id = 'e1'"; "SET e.tenant_id = 't1'";
                      "SET e.entity_type = 'Person'"; "SET e.name = 'Ada'";
                      "RETURN e;" ] in
  _build_entity_cypher RefJson.loads (Obj (VDict (after_event ada_row))) = Return (Some stmt)
  /\ _build_entity_cypher RefJson.loads (Bytes (Some ada_json)) = Return (Some stmt).
Proof.
  split.
  - exact (ada_entity_statement RefJson.loads (Obj (VDict (after_event ada_row)))
             (after_event ada_row) (after_event ada_row) eq_refl eq_refl eq_refl).
  - exact (ada_entity_statement RefJson.loads (Bytes (Some ada_json))
             [("payload", VDict [("op", VStr "c"); ("before", VNone); ("after", VDict ada_row)])]
             [("op", VStr "c"); ("before", VNone); ("after", VDict ada_row)]
             eq_refl eq_refl eq_refl).
Defined.

(** C8.  For any envelope whose [after] snapshot is the row with
    [tenant_id = "t1"], [relationship_type = "KNOWS"], [id = "r1"],
    endpoints [e1] and [e2] of type [Person], the relationship builder
    returns the statement that merges the two [Person] nodes keyed by
    [(id, tenant_id) = ('e1', 't1')] and [('e2', 't1')] and merges a
    [KNOWS] edge between them keyed by [('r1', 't1')]. *)
Theorem knows_relationship_statement
    (json_loads : string -> option value) (m : message) (o p : dict) :
  _as_obj json_loads m = VDict o ->
  _payload (VDict o) = Return (VDict p) ->
  get p "after" = VDict knows_row ->
  _build_relationship_cypher json_loads m
  = Return (Some (lines [ "MERGE (a:Person {id: 'e1', tenant_id: 't1'})";
                          "MERGE (b:Person {id: 'e2', tenant_id: 't1'})";
                          "MERGE (a)-[r:KNOWS {id: 'r1', tenant_id: 't1'}]->(b)";
                          "SET r.id = 'r1'";
                          "SET r.tenant_id = 't1'";
                          "RETURN r;" ])).
Proof.
  intros Ho Hp Hafter.
  rewrite (build_relationship_decoded _ _ _ _ Ho Hp), Hafter.
  reflexivity.
Qed.

Lemma knows_relationship_statement_witness :
  _build_relationship_cypher RefJson.loads (Obj (VDict (after_event knows_row)))
  = Return (Some (lines [ "MERGE (a:Person {id: 'e1', tenant_id: 't1'})";
                          "MERGE (b:Person {id: 'e2', tenant_id: 't1'})";
                          "MERGE (a)-[r:KNOWS {id: 'r1', tenant_id: 't1'}]->(b)";
                          "SET r.id = 'r1'";
                          "SET r.tenant_id = 't1'";
                          "RETURN r;" ])).
Proof.
  exact (knows_relationship_statement RefJson.loads (Obj (VDict (after_event knows_row)))
           (after_event knows_row) (after_event knows_row) eq_refl eq_refl eq_refl).
Defined.

(** ** Literals *)

Lemma read_escaped_body (s rest : string) :
  read_literal_body (_cypher_escape_string s ++ "'" ++ rest) = Some (s, rest).
Proof.
  unfold _cypher_escape_string.
  induction s as [|c s IH]; [reflexivity|].
  cbn [replace].
  destruct (Ascii.eqb_spec c "\"%char) as [->|Hb].
  - cbn. cbn in IH. now rewrite IH.
  - cbn [replace].
    destruct (Ascii.eqb_spec c "'"%char) as [->|Hq].
    + cbn. cbn in IH. now rewrite IH.
    + cbn [append read_literal_body].
      apply Ascii.eqb_neq in Hb, Hq. rewrite Hq, Hb.
      cbn in IH. cbn. now rewrite IH.
Qed.

(** C7.  The quoted literal [_cypher_literal] writes for a text reads back,
    by the grammar of string literals, as exactly that text, and the
    literal ends where its closing quote is, whatever follows it in the
    statement.  This holds for every text, with or without backslashes
    and single quotes. *)
Theorem string_literal_round_trip (s rest : string) :
  read_string_literal (_cypher_literal (VStr s) ++ rest) = Some (s, rest).
Proof.
  cbn [_cypher_literal]. cbn [append read_string_literal].
  rewrite Ascii.eqb_refl, append_assoc.
  apply read_escaped_body.
Qed.

Example escaped_literal :
  _cypher_literal (VStr "O'Brien \ x") = "'O\'Brien \\ x'"
  /\ _cypher_literal (VList [VInt 1; VStr "a"; VNone; VBool true]) = "[1, 'a', NULL, true]"
  /\ _cypher_literal (VDict [("k", VStr "it's")])
     = "'{" ++ quoted "k" ++ ":" ++ quoted "it\'s" ++ "}'".
Proof. repeat split; reflexivity. Qed.

(** ** Property keys *)

Lemma forall_alnum_without_underscores (k : string) :
  str_forall char_isalnum (replace "_"%char EmptyString k) = identifier_chars k.
Proof.
  unfold identifier_chars.
  induction k as [|c k IH]; [reflexivity|].
  cbn [replace str_forall].
  destruct (Ascii.eqb_spec c "_"%char) as [->|Hne].
  - cbn [append]. rewrite IH. reflexivity.
  - cbn [str_forall]. rewrite IH, orb_false_r. reflexivity.
Qed.

(** The test of line 70, read off the key itself. *)
Lemma isalnum_without_underscores (k : string) :
  isalnum (replace "_"%char EmptyString k) = identifier_chars k && has_alnum k.
Proof.
  unfold isalnum. rewrite forall_alnum_without_underscores.
  unfold identifier_chars, has_alnum.
  induction k as [|c k IH]; [reflexivity|].
  cbn [replace str_forall str_exists].
  destruct (Ascii.eqb_spec c "_"%char) as [->|Hne].
  - cbn [append]. exact IH.
  - cbn [is_empty negb]. rewrite orb_false_r.
    destruct (char_isalnum c); cbn [andb orb]; [now rewrite andb_true_r | reflexivity].
Qed.

Lemma set_clauses_kept (var : string) (props : dict) (skip : list string) :
  set_clauses var props skip
  = clauses_of var (kept (fun k => identifier_chars k && has_alnum k) props skip).
Proof.
  unfold clauses_of, kept.
  induction props as [|[k v] props IH]; [reflexivity|].
  cbn [set_clauses filter fst snd].
  rewrite isalnum_without_underscores.
  destruct (in_set k skip); cbn [negb andb]; [exact IH|].
  destruct (identifier_chars k && has_alnum k); cbn [negb map fst snd]; now rewrite IH.
Qed.

(** [str.isalnum] is [isalpha], [isdigit] or [isnumeric]. *)
Lemma char_isalnum_classes (c : ascii) :
  char_isalnum c = char_isalpha c || char_isdigit c || char_isnumeric c.
Proof. destruct c as [[] [] [] [] [] [] [] []]; reflexivity. Qed.

(** C6 (as stated) fails both ways.  A key made of underscores only is
    composed solely of letters, digits and underscores and is not excluded,
    yet [_set_props] writes no clause for it.  A key that is the fraction
    one half (code point 189) is not composed of letters, digits and
    underscores, yet [_set_props] writes a clause for it. *)
Lemma underscore_key_has_no_clause :
  let half := String (chr 189) EmptyString in
  let props := [("_", VInt 1); ("a_1", VInt 2); (half, VInt 3)] in
  (letters_digits_underscores "_" = true
   /\ in_set "_" [] = false
   /\ ~ In (set_clause "e" "_" (VInt 1)) (set_clauses "e" props []))
  /\ (letters_digits_underscores half = false
      /\ char_isalpha (chr 189) = false /\ char_isdigit (chr 189) = false
      /\ In (set_clause "e" half (VInt 3)) (set_clauses "e" props []))
  /\ set_clauses "e" props [] = ["SET e.a_1 = 2"; "SET e." ++ half ++ " = 3"]
  /\ clauses_of "e" (kept letters_digits_underscores props [])
     = ["SET e._ = 1"; "SET e.a_1 = 2"].
Proof.
  intros half props.
  split; [|split; [|split]].
  - split; [reflexivity|]. split; [reflexivity|].
    intros [H|[H|[]]]; discriminate H.
  - do 3 (split; [reflexivity|]). right. left. reflexivity.
  - reflexivity.
  - reflexivity.
Qed.

(** C6 (amended).  For every property map and exclusion set, the clauses
    [_set_props] writes are, in the order of the map, those of the entries
    whose key is not excluded, is composed solely of alphanumeric
    characters and underscores, and has at least one alphanumeric
    character; every other entry is skipped and the rest are unaffected.
    Alphanumeric is [str.isalnum]: a letter, a digit or another numeric
    character. *)
Theorem set_props_keeps_identifier_keys
    (var : string) (props : dict) (skip : option (list string)) :
  let excluded := match skip with Some l => l | None => [] end in
  let ok := fun k => identifier_chars k && has_alnum k in
  _set_props var props skip = join newline (clauses_of var (kept ok props excluded))
  /\ (forall k v,
        In (k, v) (kept ok props excluded)
        <-> In (k, v) props /\ in_set k excluded = false
            /\ identifier_chars k = true /\ has_alnum k = true)
  /\ (forall k,
        identifier_chars k
        = str_forall (fun c => char_isalpha c || char_isdigit c || char_isnumeric c
                               || Ascii.eqb c "_") k)
  /\ (forall k,
        has_alnum k
        = str_exists (fun c => char_isalpha c || char_isdigit c || char_isnumeric c) k).
Proof.
  intros excluded ok. split; [|split; [|split]].
  - unfold _set_props. rewrite set_clauses_kept. subst excluded.
    destruct skip as [[|x l]|]; reflexivity.
  - intros k v. unfold kept. rewrite filter_In. cbn [fst]. subst ok. cbn beta.
    rewrite !andb_true_iff, negb_true_iff. tauto.
  - intros k. unfold identifier_chars.
    induction k as [|c k IH]; [reflexivity|].
    cbn [str_forall]. now rewrite IH, char_isalnum_classes.
  - intros k. unfold has_alnum.
    induction k as [|c k IH]; [reflexivity|].
    cbn [str_exists]. now rewrite IH, char_isalnum_classes.
Qed.

(** ** The data blob *)

Lemma keys_dict_set (k k' : string) (v : value) (d : dict) :
  In k (keys (dict_set k' v d)) -> k = k' \/ In k (keys d).
Proof.
  induction d as [|[k0 v0] d IH]; simpl.
  - intros [<-|[]]. now left.
  - destruct (String.eqb k' k0); simpl; intros [<-|Hin]; auto.
    destruct (IH Hin); auto.
Qed.

Lemma keys_copy_known (k : string) (ks : list string) (row props : dict) :
  In k (keys (copy_known ks row props)) -> In k ks \/ In k (keys props).
Proof.
  unfold copy_known. revert props.
  induction ks as [|k0 ks IH]; intros props; simpl; [auto|].
  intros Hin. destruct (IH _ Hin) as [H|H]; [auto|].
  destruct (dict_mem k0 row); [|auto].
  destruct (keys_dict_set _ _ _ _ H) as [->|H']; auto.
Qed.

Lemma kept_everything (ok : string -> bool) (props : dict) :
  (forall k, In k (keys props) -> ok k = true) -> kept ok props [] = props.
Proof.
  unfold kept. induction props as [|[k v] props IH]; intros Hok; [reflexivity|].
  cbn [filter]. rewrite IH by (intros k' Hk'; apply Hok; now right).
  cbn [fst]. change (in_set k []) with false. cbn [negb andb].
  now rewrite (Hok k) by (now left).
Qed.

(** Without an overlay every property of either map has a key that passes
    the test of [_set_props], so every one of them is written. *)
Lemma entity_props_all_written (row : dict) :
  _set_props "e" (entity_props row (VDict [])) None
  = join newline (clauses_of "e" (entity_props row (VDict []))).
Proof.
  unfold _set_props. rewrite set_clauses_kept, kept_everything; [reflexivity|].
  intros k Hk. unfold entity_props in Hk. cbn [merge_data fold_left] in Hk.
  apply keys_copy_known in Hk. cbn in Hk.
  decompose [or] Hk; subst; try contradiction; reflexivity.
Qed.

Lemma relationship_props_all_written (row : dict) :
  _set_props "r" (relationship_props row (VDict [])) None
  = join newline (clauses_of "r" (relationship_props row (VDict []))).
Proof.
  unfold _set_props. rewrite set_clauses_kept, kept_everything; [reflexivity|].
  intros k Hk. unfold relationship_props in Hk. cbn [merge_data fold_left] in Hk.
  apply keys_copy_known in Hk. cbn in Hk.
  decompose [or] Hk; subst; try contradiction; reflexivity.
Qed.

Lemma row_data_malformed (json_loads : string -> option value) (row : dict) (s : string) :
  get row "data" = VStr s -> json_loads s = None -> row_data json_loads row = VDict [].
Proof.
  intros Hd Hs. unfold row_data, py_or. rewrite Hd.
  destruct s as [|c s]; cbn; [reflexivity|]. now rewrite Hs.
Qed.

Lemma props_copy_known_get (k : string) (ks : list string) (row props : dict) :
  In k ks -> dict_mem k row = true ->
  dict_get k (copy_known ks row props) = Some (get row k).
Proof.
  intros Hin Hm. rewrite dict_get_copy_known, Hm, andb_true_r.
  replace (in_set k ks) with true; [reflexivity|].
  symmetry. apply existsb_exists. exists k. split; [exact Hin | apply String.eqb_refl].
Qed.

(** ** Merge keys *)

Lemma overlaid_get (k : string) (ks : list string) (row base d : dict) :
  NoDup (keys d) ->
  in_set k ks = false ->
  get (merge_data (VDict d) (copy_known ks row base)) k = overlaid k d (get base k).
Proof.
  intros Hnd Hk. unfold get, overlaid.
  rewrite (dict_get_merge_data _ _ _ Hnd), dict_get_copy_known, Hk.
  now destruct (dict_get k d).
Qed.

(** C10.  For a decoded envelope whose effective row has a parsed [data]
    mapping [d]: the entity node and the relationship edge are keyed by the
    [id] and [tenant_id] of [d] where [d] has them, embedded as they are
    and not as text, and by the row's own as text otherwise; the endpoint
    nodes of a relationship are keyed by the row's own
    [from_merged_entity_id], [to_merged_entity_id] and [tenant_id] as text
    whatever [d] holds. *)
Theorem data_overlay_reaches_merge_keys
    (json_loads : string -> option value) (m : message) (o p row d : dict) :
  _as_obj json_loads m = VDict o ->
  _payload (VDict o) = Return (VDict p) ->
  select_row (get p "after") (get p "before") = Some row ->
  row_data json_loads row = VDict d ->
  NoDup (keys d) ->
  let key_id := overlaid "id" d (VStr (py_str (get row "id"))) in
  let key_tenant := overlaid "tenant_id" d (VStr (py_str (get row "tenant_id"))) in
  _build_entity_cypher json_loads m
  = (if entity_fields_ok row
     then Return (Some (strip (entity_template
                                 (py_str (get row "entity_type"))
                                 (_cypher_literal key_id) (_cypher_literal key_tenant)
                                 (_set_props "e" (entity_props row (VDict d)) None))))
     else Return None)
  /\ _build_relationship_cypher json_loads m
     = (if relationship_fields_ok row
        then Return (Some (strip (relationship_template
               (py_str (get row "from_entity_type"))
               (_cypher_literal (VStr (py_str (get row "from_merged_entity_id"))))
               (py_str (get row "to_entity_type"))
               (_cypher_literal (VStr (py_str (get row "to_merged_entity_id"))))
               (_cypher_literal (VStr (py_str (get row "tenant_id"))))
               (py_str (get row "relationship_type"))
               (_cypher_literal key_id) (_cypher_literal key_tenant)
               (_set_props "r" (relationship_props row (VDict d)) None))))
        else Return None).
Proof.
  intros Ho Hp Hrow Hdata Hnd key_id key_tenant.
  rewrite (build_entity_decoded _ _ _ _ Ho Hp), (build_relationship_decoded _ _ _ _ Ho Hp), Hrow.
  rewrite entity_row_cypher_eq, relationship_row_cypher_eq, Hdata.
  cbv zeta. unfold entity_props at 1 2, relationship_props at 1 2.
  cbv zeta. rewrite !overlaid_get by (assumption || reflexivity).
  split; reflexivity.
Qed.

Lemma data_overlay_reaches_merge_keys_witness :
  let erow := [("id", VStr "e1"); ("tenant_id", VStr "t1"); ("entity_type", VStr "Person");
               ("data", VDict [("name", VStr "Ada"); ("id", VInt 7)])] in
  let rrow := (knows_row ++ [("data", VStr ("{" ++ quoted "tenant_id" ++ ": "
                                             ++ quoted "t9" ++ "}"))])%list in
  _build_entity_cypher RefJson.loads (Obj (VDict (after_event erow)))
  = Return (Some (lines [ "MERGE (e:Person {id: 7, tenant_id: 't1'})";
                          "SET e.id = 7";
                          "SET e.tenant_id = 't1'";
                          "SET e.entity_type = 'Person'";
                          "SET e.name = 'Ada'";
                          "RETURN e;" ]))
  /\ _build_relationship_cypher RefJson.loads (Obj (VDict (after_event rrow)))
     = Return (Some (lines [ "MERGE (a:Person {id: 'e1', tenant_id: 't1'})";
                             "MERGE (b:Person {id: 'e2', tenant_id: 't1'})";
                             "MERGE (a)-[r:KNOWS {id: 'r1', tenant_id: 't9'}]->(b)";
                             "SET r.id = 'r1'";
                             "SET r.tenant_id = 't9'";
                             "RETURN r;" ])).
Proof.
  intros erow rrow.
  assert (Hone : forall (k : string) (v : value), NoDup (keys [(k, v)])).
  { intros k v. constructor; [intros [] | constructor]. }
  assert (Htwo : NoDup (keys [("name", VStr "Ada"); ("id", VInt 7)])).
  { constructor; [|apply Hone]. intros [H|[]]. discriminate H. }
  split.
  - exact (proj1 (data_overlay_reaches_merge_keys RefJson.loads
                    (Obj (VDict (after_event erow))) (after_event erow) (after_event erow)
                    erow [("name", VStr "Ada"); ("id", VInt 7)]
                    eq_refl eq_refl eq_refl eq_refl Htwo)).
  - exact (proj2 (data_overlay_reaches_merge_keys RefJson.loads
                    (Obj (VDict (after_event rrow))) (after_event rrow) (after_event rrow)
                    rrow [("tenant_id", VStr "t9")]
                    eq_refl eq_refl eq_refl eq_refl (Hone _ _))).
Defined.

(** * Further properties *)

(** ** Decoding and the envelope *)

Lemma decoded_cases (json_loads : string -> option value) (m : message) :
  _as_obj json_loads m = VNone
  \/ (exists o, _as_obj json_loads m = VDict o)
  \/ non_mapping json_loads m.
Proof.
  unfold non_mapping. destruct (_as_obj json_loads m) as [| | | | | |d]; eauto;
    right; right; split; (discriminate || reflexivity).
Qed.

Lemma raise_on_non_mapping (json_loads : string -> option value) (m : message) :
  non_mapping json_loads m ->
  (exists e, _build_entity_cypher json_loads m = Raise e)
  /\ (exists e, _build_relationship_cypher json_loads m = Raise e).
Proof.
  intros [Hnone Hdict].
  unfold _build_entity_cypher, _build_relationship_cypher.
  destruct (_as_obj json_loads m) as [|b|z|r|s|l|d]; try contradiction; try discriminate;
    unfold _payload; simpl; eauto.
  - destruct (str_contains "payload" s); simpl; eauto.
  - destruct (existsb (py_eq_str "payload") l); simpl; eauto.
Qed.

Lemma payload_unwrap (o p : dict) :
  dict_get "payload" o = Some (VDict p) -> _payload (VDict o) = Return (VDict p).
Proof.
  intros H. unfold _payload; simpl. unfold dict_mem, dict_index. now rewrite H.
Qed.

Lemma payload_plain (o : dict) :
  is_dict (get o "payload") = false -> _payload (VDict o) = Return (VDict o).
Proof.
  unfold _payload, get; simpl. unfold dict_mem, dict_index.
  destruct (dict_get "payload" o) as [v|]; simpl; [|reflexivity].
  now intros ->.
Qed.

(** Run without limits, a builder raises exactly on the messages that
    decode to a document which is neither null nor a mapping. *)
Lemma unlimited_builders_raise_iff
    (json_loads : string -> option value) (m : message) :
  ((exists e, _build_entity_cypher json_loads m = Raise e) <-> non_mapping json_loads m)
  /\ ((exists e, _build_relationship_cypher json_loads m = Raise e)
      <-> non_mapping json_loads m).
Proof.
  destruct (decoded_cases json_loads m) as [Hn|[Hd|Hbad]].
  - destruct (builders_return_on_mappings json_loads m (or_introl Hn)) as [[r1 H1] [r2 H2]].
    rewrite H1, H2. unfold non_mapping.
    split; (split; [intros [e He]; discriminate | intros [Hc _]; contradiction]).
  - destruct (builders_return_on_mappings json_loads m (or_intror Hd)) as [[r1 H1] [r2 H2]].
    rewrite H1, H2. destruct Hd as [o Ho]. unfold non_mapping. rewrite Ho.
    split; (split; [intros [e He]; discriminate | intros [_ Hc]; discriminate]).
  - destruct (raise_on_non_mapping _ _ Hbad) as [H1 H2].
    split; (split; [intros _; exact Hbad | intros _; assumption]).
Qed.

(** X2.  The wrapper is transparent: a message that decodes to a mapping
    whose [payload] is a mapping [p] gives, with both builders, what a
    message that decodes to [p] itself gives, provided [p] holds no
    [payload] mapping of its own (the wrapper is removed once). *)
Theorem payload_wrapper_is_transparent
    (json_loads : string -> option value) (wrapped bare : message) (o p : dict) :
  _as_obj json_loads wrapped = VDict o ->
  dict_get "payload" o = Some (VDict p) ->
  _as_obj json_loads bare = VDict p ->
  is_dict (get p "payload") = false ->
  _build_entity_cypher json_loads wrapped = _build_entity_cypher json_loads bare
  /\ _build_relationship_cypher json_loads wrapped
     = _build_relationship_cypher json_loads bare.
Proof.
  intros Hw Hp Hb Hplain.
  rewrite (build_entity_decoded _ _ _ _ Hw (payload_unwrap _ _ Hp)).
  rewrite (build_entity_decoded _ _ _ _ Hb (payload_plain _ Hplain)).
  rewrite (build_relationship_decoded _ _ _ _ Hw (payload_unwrap _ _ Hp)).
  rewrite (build_relationship_decoded _ _ _ _ Hb (payload_plain _ Hplain)).
  split; reflexivity.
Qed.

Lemma payload_wrapper_is_transparent_witness :
  let p := [("op", VStr "c"); ("before", VNone); ("after", VDict ada_row)] in
  let o := [("schema", VNone); ("payload", VDict p)] in
  _as_obj RefJson.loads (Bytes (Some ada_json)) = VDict [("payload", VDict p)]
  /\ _build_entity_cypher RefJson.loads (Bytes (Some ada_json))
     = _build_entity_cypher RefJson.loads (Obj (VDict p))
  /\ _build_relationship_cypher RefJson.loads (Obj (VDict o))
     = _build_relationship_cypher RefJson.loads (Obj (VDict p)).
Proof.
  intros p o. split; [reflexivity|]. split.
  - exact (proj1 (payload_wrapper_is_transparent RefJson.loads (Bytes (Some ada_json))
                    (Obj (VDict p)) [("payload", VDict p)] p
                    eq_refl eq_refl eq_refl eq_refl)).
  - exact (proj2 (payload_wrapper_is_transparent RefJson.loads (Obj (VDict o))
                    (Obj (VDict p)) o p eq_refl eq_refl eq_refl eq_refl)).
Defined.

(** X3.  The builders never look at [op]: a delete event, whose row is
    its [before] snapshot, gives the very statement, a [MERGE], that an
    insert or update with the same row as [after] gives. *)
Theorem delete_event_is_merged_like_an_upsert
    (json_loads : string -> option value) (upsert delete : message)
    (o1 p1 o2 p2 row : dict) :
  _as_obj json_loads upsert = VDict o1 ->
  _payload (VDict o1) = Return (VDict p1) ->
  get p1 "after" = VDict row ->
  _as_obj json_loads delete = VDict o2 ->
  _payload (VDict o2) = Return (VDict p2) ->
  is_dict (get p2 "after") = false ->
  get p2 "before" = VDict row ->
  _build_entity_cypher json_loads delete = _build_entity_cypher json_loads upsert
  /\ _build_relationship_cypher json_loads delete
     = _build_relationship_cypher json_loads upsert.
Proof.
  intros Ho1 Hp1 Ha1 Ho2 Hp2 Ha2 Hb2.
  rewrite (build_entity_decoded _ _ _ _ Ho1 Hp1), (build_entity_decoded _ _ _ _ Ho2 Hp2).
  rewrite (build_relationship_decoded _ _ _ _ Ho1 Hp1),
          (build_relationship_decoded _ _ _ _ Ho2 Hp2).
  rewrite Ha1, Hb2. destruct (get p2 "after"); try discriminate; split; reflexivity.
Qed.

Lemma delete_event_is_merged_like_an_upsert_witness :
  _build_entity_cypher RefJson.loads (Obj (VDict (delete_event ada_row)))
  = _build_entity_cypher RefJson.loads (Obj (VDict (after_event ada_row)))
  /\ _build_relationship_cypher RefJson.loads (Obj (VDict (delete_event knows_row)))
     = _build_relationship_cypher RefJson.loads (Obj (VDict (after_event knows_row))).
Proof.
  split.
  - exact (proj1 (delete_event_is_merged_like_an_upsert RefJson.loads
                    (Obj (VDict (after_event ada_row))) (Obj (VDict (delete_event ada_row)))
                    _ _ _ _ ada_row eq_refl eq_refl eq_refl eq_refl eq_refl eq_refl eq_refl)).
  - exact (proj2 (delete_event_is_merged_like_an_upsert RefJson.loads
                    (Obj (VDict (after_event knows_row)))
                    (Obj (VDict (delete_event knows_row)))
                    _ _ _ _ knows_row eq_refl eq_refl eq_refl eq_refl eq_refl eq_refl eq_refl)).
Defined.

(** ** The statements *)

Lemma entity_template_frame (label key_id key_tenant sets : string) :
  exists body,
    strip (entity_template label key_id key_tenant sets)
    = "MERGE (e:" ++ body ++ newline ++ "RETURN e;".
Proof.
  rewrite strip_entity_template.
  exists (label ++ " {id: " ++ key_id ++ ", tenant_id: " ++ key_tenant ++ "})"
          ++ newline ++ sets).
  rewrite !append_assoc. reflexivity.
Qed.

Lemma relationship_template_frame
    (from_type from_id to_type to_id tenant rel_type key_id key_tenant sets : string) :
  exists body,
    strip (relationship_template from_type from_id to_type to_id tenant rel_type
                                 key_id key_tenant sets)
    = "MERGE (a:" ++ body ++ newline ++ "RETURN r;".
Proof.
  rewrite strip_relationship_template.
  exists (from_type ++ " {id: " ++ from_id ++ ", tenant_id: " ++ tenant ++ "})"
          ++ newline
          ++ "MERGE (b:" ++ to_type ++ " {id: " ++ to_id ++ ", tenant_id: " ++ tenant ++ "})"
          ++ newline
          ++ "MERGE (a)-[r:" ++ rel_type ++ " {id: " ++ key_id ++ ", tenant_id: " ++ key_tenant
          ++ "}]->(b)" ++ newline ++ sets).
  rewrite !append_assoc. reflexivity.
Qed.

Lemma entity_statement_frame (json_loads : string -> option value) (row : dict) (text : string) :
  entity_row_cypher json_loads row = Return (Some text) ->
  exists body, text = "MERGE (e:" ++ body ++ newline ++ "RETURN e;".
Proof.
  rewrite entity_row_cypher_eq. destruct (entity_fields_ok row); [|discriminate].
  cbv zeta. intros H.
  match type of H with
  | Return (Some (strip (entity_template ?l ?a ?b ?s))) = _ =>
      destruct (entity_template_frame l a b s) as [body Hbody]
  end.
  exists body. rewrite <- Hbody. congruence.
Qed.

Lemma relationship_statement_frame
    (json_loads : string -> option value) (row : dict) (text : string) :
  relationship_row_cypher json_loads row = Return (Some text) ->
  exists body, text = "MERGE (a:" ++ body ++ newline ++ "RETURN r;".
Proof.
  rewrite relationship_row_cypher_eq. destruct (relationship_fields_ok row); [|discriminate].
  cbv zeta. intros H.
  match type of H with
  | Return (Some (strip (relationship_template ?a ?b ?c ?d ?e ?f ?g ?h ?i))) = _ =>
      destruct (relationship_template_frame a b c d e f g h i) as [body Hbody]
  end.
  exists body. rewrite <- Hbody. congruence.
Qed.

Lemma built_statement_cases (json_loads : string -> option value) (m : message) (text : string) :
  (_build_entity_cypher json_loads m = Return (Some text) ->
   exists row, entity_row_cypher json_loads row = Return (Some text))
  /\ (_build_relationship_cypher json_loads m = Return (Some text) ->
      exists row, relationship_row_cypher json_loads row = Return (Some text)).
Proof.
  destruct (decoded_cases json_loads m) as [Hn|[[o Ho]|Hbad]].
  - unfold _build_entity_cypher, _build_relationship_cypher. rewrite Hn.
    split; discriminate.
  - destruct (payload_dict o) as [p Hp].
    rewrite (build_entity_decoded _ _ _ _ Ho Hp), (build_relationship_decoded _ _ _ _ Ho Hp).
    destruct (select_row (get p "after") (get p "before")) as [row|];
      split; try discriminate; eauto.
  - destruct (raise_on_non_mapping _ _ Hbad) as [[e1 H1] [e2 H2]].
    rewrite H1, H2. split; discriminate.
Qed.

(** X4.  Every statement a builder returns is framed the same way: the
    entity statement begins with [MERGE (e:] and ends with a line
    [RETURN e;], the relationship statement begins with [MERGE (a:] and
    ends with a line [RETURN r;].  A returned statement is thus never
    empty, and the transformations keep every one of them. *)
Theorem statements_are_framed
    (json_loads : string -> option value) (m : message) (text : string) :
  (_build_entity_cypher json_loads m = Return (Some text) ->
   is_empty text = false
   /\ exists body, text = "MERGE (e:" ++ body ++ newline ++ "RETURN e;")
  /\ (_build_relationship_cypher json_loads m = Return (Some text) ->
      is_empty text = false
      /\ exists body, text = "MERGE (a:" ++ body ++ newline ++ "RETURN r;").
Proof.
  destruct (built_statement_cases json_loads m text) as [He Hr].
  split; intros H.
  - destruct (He H) as [row Hrow].
    destruct (entity_statement_frame _ _ _ Hrow) as [body ->]. split; [reflexivity|eauto].
  - destruct (Hr H) as [row Hrow].
    destruct (relationship_statement_frame _ _ _ Hrow) as [body ->]. split; [reflexivity|eauto].
Qed.

Lemma statements_are_framed_witness :
  exists text,
    _build_relationship_cypher RefJson.loads (Obj (VDict (after_event knows_row)))
    = Return (Some text)
    /\ is_empty text = false
    /\ exists body, text = "MERGE (a:" ++ body ++ newline ++ "RETURN r;".
Proof.
  eexists. split; [reflexivity|].
  exact (proj2 (statements_are_framed RefJson.loads (Obj (VDict (after_event knows_row))) _)
           eq_refl).
Defined.

(** ** Batches *)

Lemma transform_loop_result (build : message -> outcome (option string))
    (payloads : list message) (result : list record) :
  transform_loop build payloads result
  = (more <- transform_loop build payloads [] ;; Return (result ++ more)%list).
Proof.
  revert result. induction payloads as [|m rest IH]; intros result; simpl.
  - now rewrite app_nil_r.
  - destruct (build m) as [[text|]|e]; simpl; [| apply IH | reflexivity].
    destruct (negb (is_empty text)); [|apply IH].
    rewrite (IH (result ++ _)%list), (IH [_]).
    destruct (transform_loop build rest []); simpl; [|reflexivity].
    now rewrite <- app_assoc.
Qed.

Lemma transform_loop_app (build : message -> outcome (option string))
    (first second : list message) (result : list record) :
  transform_loop build (first ++ second) result
  = (mid <- transform_loop build first result ;; transform_loop build second mid).
Proof.
  revert result. induction first as [|m rest IH]; intros result; simpl; [reflexivity|].
  destruct (build m) as [[text|]|e]; simpl; [| apply IH | reflexivity].
  destruct (negb (is_empty text)); apply IH.
Qed.

(** X5.  A batch split in two is transformed piecewise: the records of
    the whole are those of the first part followed by those of the second,
    and the whole raises what the first part raises, or else what the
    second raises. *)
Theorem transform_of_concatenated_batches
    (json_loads : string -> option value) (first second : list message) :
  transform_merged_entity json_loads (first ++ second)
  = (r1 <- transform_merged_entity json_loads first ;;
     r2 <- transform_merged_entity json_loads second ;;
     Return (r1 ++ r2)%list)
  /\ transform_merged_relationship json_loads (first ++ second)
     = (r1 <- transform_merged_relationship json_loads first ;;
        r2 <- transform_merged_relationship json_loads second ;;
        Return (r1 ++ r2)%list).
Proof.
  unfold transform_merged_entity, transform_merged_relationship.
  rewrite !transform_loop_app.
  split.
  - destruct (transform_loop (_build_entity_cypher json_loads) first []); simpl;
      [apply transform_loop_result | reflexivity].
  - destruct (transform_loop (_build_relationship_cypher json_loads) first []); simpl;
      [apply transform_loop_result | reflexivity].
Qed.

Lemma transform_loop_cons (build : message -> outcome (option string))
    (m : message) (rest : list message) :
  transform_loop build (m :: rest) []
  = (r1 <- transform_loop build [m] [] ;;
     r2 <- transform_loop build rest [] ;;
     Return (r1 ++ r2)%list).
Proof.
  change (m :: rest) with ([m] ++ rest)%list. rewrite transform_loop_app.
  destruct (transform_loop build [m] []); simpl;
    [apply transform_loop_result | reflexivity].
Qed.

Lemma transform_loop_returns (build : message -> outcome (option string))
    (payloads : list message) :
  Forall (fun m => exists r, build m = Return r) payloads ->
  (forall m text, build m = Return (Some text) -> is_empty text = false) ->
  transform_loop build payloads []
  = Return (map to_record (flat_map (fun m => built (build m)) payloads)).
Proof.
  intros Hall Hfull. induction Hall as [|m rest [r Hm] _ IH]; [reflexivity|].
  rewrite transform_loop_cons, IH. cbn [flat_map]. rewrite map_app.
  cbn [transform_loop]. rewrite Hm. cbn [bind built].
  destruct r as [text|]; [|reflexivity].
  now rewrite (Hfull _ _ Hm).
Qed.

Lemma transform_loop_raises (build : message -> outcome (option string))
    (payloads : list message) (result : list record) :
  (exists e, transform_loop build payloads result = Raise e)
  <-> Exists (fun m => exists e, build m = Raise e) payloads.
Proof.
  revert result. induction payloads as [|m rest IH]; intros result; simpl.
  - split; [intros [e He]; discriminate | intros H; inversion H].
  - rewrite Exists_cons.
    destruct (build m) as [[text|]|e]; simpl.
    + destruct (negb (is_empty text)); rewrite IH;
        (split; [auto | intros [[e He]|H]; [discriminate | exact H]]).
    + rewrite IH. split; [auto | intros [[e He]|H]; [discriminate | exact H]].
    + split; eauto.
Qed.

(** Run without limits, a transformation of a batch whose messages all
    decode to null or to a mapping returns the statements built, in order. *)
Lemma unlimited_transform_returns
    (json_loads : string -> option value) (messages : list message) :
  Forall (fun m => ~ non_mapping json_loads m) messages ->
  transform_merged_entity json_loads messages
  = Return (map to_record
              (flat_map (fun m => built (_build_entity_cypher json_loads m)) messages))
  /\ transform_merged_relationship json_loads messages
     = Return (map to_record
                 (flat_map (fun m => built (_build_relationship_cypher json_loads m))
                           messages)).
Proof.
  intros Hall.
  assert (Hret : Forall (fun m =>
            (exists r, _build_entity_cypher json_loads m = Return r)
            /\ (exists r, _build_relationship_cypher json_loads m = Return r)) messages).
  { eapply Forall_impl; [|exact Hall]. intros m Hm.
    apply builders_return_on_mappings.
    destruct (decoded_cases json_loads m) as [Hn|[Hd|Hbad]]; auto. contradiction. }
  split; apply transform_loop_returns.
  - eapply Forall_impl; [|exact Hret]. now intros m [H _].
  - intros m text H. destruct (built_statement_cases json_loads m text) as [He _].
    destruct (He H) as [row Hrow].
    now destruct (entity_statement_frame _ _ _ Hrow) as [body ->].
  - eapply Forall_impl; [|exact Hret]. now intros m [_ H].
  - intros m text H. destruct (built_statement_cases json_loads m text) as [_ Hr].
    destruct (Hr H) as [row Hrow].
    now destruct (relationship_statement_frame _ _ _ Hrow) as [body ->].
Qed.

(** Run without limits, a transformation raises exactly when some message
    decodes to a document which is neither null nor a mapping. *)
Lemma unlimited_transform_raises_iff
    (json_loads : string -> option value) (messages : list message) :
  ((exists e, transform_merged_entity json_loads messages = Raise e)
   <-> Exists (non_mapping json_loads) messages)
  /\ ((exists e, transform_merged_relationship json_loads messages = Raise e)
      <-> Exists (non_mapping json_loads) messages).
Proof.
  unfold transform_merged_entity, transform_merged_relationship.
  rewrite !transform_loop_raises, !Exists_exists.
  split; split; intros [m [Hin Hm]]; exists m; (split; [exact Hin|]).
  - destruct (decoded_cases json_loads m) as [Hn|[Hd|Hbad]]; [| |exact Hbad].
    + destruct (builders_return_on_mappings json_loads m (or_introl Hn)) as [[r Hr] _].
      destruct Hm as [e He]. congruence.
    + destruct (builders_return_on_mappings json_loads m (or_intror Hd)) as [[r Hr] _].
      destruct Hm as [e He]. congruence.
  - now apply raise_on_non_mapping.
  - destruct (decoded_cases json_loads m) as [Hn|[Hd|Hbad]]; [| |exact Hbad].
    + destruct (builders_return_on_mappings json_loads m (or_introl Hn)) as [_ [r Hr]].
      destruct Hm as [e He]. congruence.
    + destruct (builders_return_on_mappings json_loads m (or_intror Hd)) as [_ [r Hr]].
      destruct Hm as [e He]. congruence.
  - now apply raise_on_non_mapping.
Qed.

Example one_bad_message_loses_the_batch :
  transform_merged_entity RefJson.loads
    [Obj (VDict (after_event ada_row)); Bytes (Some "[1]"); Bytes (Some ada_json)]
  = Raise AttributeError.
Proof. reflexivity. Qed.

(** ** Property maps *)

Lemma dict_mem_keys (k : string) (d : dict) : dict_mem k d = in_set k (keys d).
Proof.
  unfold dict_mem, in_set. induction d as [|[k0 v0] d IH]; [reflexivity|].
  simpl. destruct (String.eqb k k0); [reflexivity | exact IH].
Qed.

Lemma in_set_In (k : string) (l : list string) : in_set k l = true <-> In k l.
Proof.
  unfold in_set. rewrite existsb_exists. split.
  - intros [x [Hin Heq]]. apply String.eqb_eq in Heq. now subst.
  - intros Hin. exists k. split; [exact Hin | apply String.eqb_refl].
Qed.

Lemma keys_dict_set_eq (k : string) (v : value) (d : dict) :
  keys (dict_set k v d) = if dict_mem k d then keys d else (keys d ++ [k])%list.
Proof.
  unfold dict_mem. induction d as [|[k0 v0] d IH]; [reflexivity|].
  simpl. destruct (String.eqb k k0); [reflexivity|].
  simpl. rewrite IH. now destruct (dict_get k d).
Qed.

Lemma NoDup_keys_dict_set (k : string) (v : value) (d : dict) :
  NoDup (keys d) -> NoDup (keys (dict_set k v d)).
Proof.
  intros Hnd. rewrite keys_dict_set_eq.
  destruct (dict_mem k d) eqn:Hm; [exact Hnd|].
  apply NoDup_app; [exact Hnd | repeat constructor; intros [] |].
  intros a Ha [<-|[]]. rewrite dict_mem_keys in Hm.
  apply in_set_In in Ha. congruence.
Qed.

Lemma NoDup_keys_copy_known (ks : list string) (row props : dict) :
  NoDup (keys props) -> NoDup (keys (copy_known ks row props)).
Proof.
  unfold copy_known. revert props.
  induction ks as [|k ks IH]; intros props Hnd; simpl; [exact Hnd|].
  apply IH. destruct (dict_mem k row); [now apply NoDup_keys_dict_set | exact Hnd].
Qed.

Lemma NoDup_keys_merge_data (data : value) (props : dict) :
  NoDup (keys props) -> NoDup (keys (merge_data data props)).
Proof.
  destruct data as [| | | | |l|d]; simpl; try easy.
  revert props. induction d as [|[k v] d IH]; intros props Hnd; simpl; [exact Hnd|].
  apply IH. now apply NoDup_keys_dict_set.
Qed.

Lemma NoDup_keys_kept (ok : string -> bool) (props : dict) (skip : list string) :
  NoDup (keys props) -> NoDup (keys (kept ok props skip)).
Proof.
  unfold kept, keys. induction props as [|[k v] props IH]; simpl; intros Hnd; [constructor|].
  inversion Hnd as [|? ? Hk Hrest]; subst.
  destruct (negb (in_set k skip) && ok k); simpl; [|now apply IH].
  constructor; [|now apply IH].
  intros Hin. apply Hk. apply in_map_iff in Hin. destruct Hin as [[k' v'] [Heq Hin]].
  apply filter_In in Hin. apply in_map_iff. exists (k', v'). tauto.
Qed.

(** X8.  Whatever the row and whatever [data] holds (also a key the row
    already gave, also the same key twice), the property map of either
    builder has each key once, and so have the clauses written from it:
    no statement assigns the same property twice. *)
Theorem no_property_is_set_twice (row : dict) (data : value) (var : string) :
  let ok := fun k => identifier_chars k && has_alnum k in
  (NoDup (keys (entity_props row data))
   /\ NoDup (keys (relationship_props row data)))
  /\ (set_clauses var (entity_props row data) []
      = clauses_of var (kept ok (entity_props row data) [])
      /\ NoDup (keys (kept ok (entity_props row data) [])))
  /\ (set_clauses var (relationship_props row data) []
      = clauses_of var (kept ok (relationship_props row data) [])
      /\ NoDup (keys (kept ok (relationship_props row data) []))).
Proof.
  intros ok.
  assert (He : NoDup (keys (entity_props row data))).
  { unfold entity_props. apply NoDup_keys_merge_data, NoDup_keys_copy_known.
    repeat apply NoDup_keys_dict_set. constructor. }
  assert (Hr : NoDup (keys (relationship_props row data))).
  { unfold relationship_props. apply NoDup_keys_merge_data, NoDup_keys_copy_known.
    repeat apply NoDup_keys_dict_set. constructor. }
  repeat split; try assumption; try apply set_clauses_kept; now apply NoDup_keys_kept.
Qed.

Lemma dict_mem_set_eq (k k' : string) (v : value) (d : dict) :
  dict_mem k (dict_set k' v d) = String.eqb k k' || dict_mem k d.
Proof.
  unfold dict_mem. rewrite dict_get_set. now destruct (String.eqb k k').
Qed.

Lemma keys_copy_known_eq (ks : list string) (row props : dict) :
  NoDup ks ->
  keys (copy_known ks row props)
  = (keys props ++ filter (fun k => dict_mem k row && negb (dict_mem k props)) ks)%list.
Proof.
  unfold copy_known. revert props.
  induction ks as [|k ks IH]; intros props Hnd; simpl; [now rewrite app_nil_r|].
  inversion Hnd as [|? ? Hk Hks]; subst. rewrite (IH _ Hks).
  destruct (dict_mem k row) eqn:Hrow; simpl.
  - rewrite keys_dict_set_eq.
    assert (Hext : filter (fun k0 => dict_mem k0 row && negb (dict_mem k0 (dict_set k (get row k) props))) ks
                   = filter (fun k0 => dict_mem k0 row && negb (dict_mem k0 props)) ks).
    { apply filter_ext_in. intros a Ha. rewrite dict_mem_set_eq.
      destruct (String.eqb_spec a k) as [->|Hne]; [contradiction | reflexivity]. }
    rewrite Hext. destruct (dict_mem k props); simpl; [reflexivity|].
    now rewrite <- app_assoc.
  - reflexivity.
Qed.

Lemma keys_merge_data_eq (d props : dict) :
  NoDup (keys d) ->
  keys (merge_data (VDict d) props)
  = (keys props ++ filter (fun k => negb (dict_mem k props)) (keys d))%list.
Proof.
  simpl. revert props.
  induction d as [|[k v] d IH]; intros props Hnd; simpl; [now rewrite app_nil_r|].
  inversion Hnd as [|? ? Hk Hd]; subst. rewrite (IH _ Hd), keys_dict_set_eq.
  assert (Hext : filter (fun k0 => negb (dict_mem k0 (dict_set k v props))) (keys d)
                 = filter (fun k0 => negb (dict_mem k0 props)) (keys d)).
  { apply filter_ext_in. intros a Ha. rewrite dict_mem_set_eq.
    destruct (String.eqb_spec a k) as [->|Hne]; [contradiction | reflexivity]. }
  rewrite Hext. destruct (dict_mem k props); simpl; [reflexivity|].
  now rewrite <- app_assoc.
Qed.

(** X9.  The order of the properties, hence of the [SET] clauses, is
    fixed by the code and not by the row: first [id], [tenant_id] (and
    [entity_type] for an entity), then the known columns the row has, in
    the order of the builder's tuple, then the keys of [data] that are none
    of these, in the order of [data]. *)
Theorem property_order_is_fixed (row d : dict) :
  NoDup (keys d) ->
  let eown := (["id"; "tenant_id"; "entity_type"]
               ++ filter (fun k => dict_mem k row) entity_known)%list in
  let rown := (["id"; "tenant_id"]
               ++ filter (fun k => dict_mem k row) relationship_known)%list in
  keys (entity_props row (VDict d))
  = (eown ++ filter (fun k => negb (in_set k eown)) (keys d))%list
  /\ keys (relationship_props row (VDict d))
     = (rown ++ filter (fun k => negb (in_set k rown)) (keys d))%list.
Proof.
  intros Hnd eown rown.
  assert (Hek : NoDup entity_known) by (repeat constructor; simpl; intuition discriminate).
  assert (Hrk : NoDup relationship_known) by (repeat constructor; simpl; intuition discriminate).
  unfold entity_props, relationship_props. cbv zeta.
  rewrite !(keys_merge_data_eq _ _ Hnd).
  rewrite (keys_copy_known_eq _ _ _ Hek), (keys_copy_known_eq _ _ _ Hrk).
  assert (He : forall base,
             (forall k, In k entity_known -> dict_mem k base = false) ->
             filter (fun k => dict_mem k row && negb (dict_mem k base)) entity_known
             = filter (fun k => dict_mem k row) entity_known).
  { intros base Hb. apply filter_ext_in. intros a Ha. rewrite (Hb a Ha). apply andb_true_r. }
  assert (Hr : forall base,
             (forall k, In k relationship_known -> dict_mem k base = false) ->
             filter (fun k => dict_mem k row && negb (dict_mem k base)) relationship_known
             = filter (fun k => dict_mem k row) relationship_known).
  { intros base Hb. apply filter_ext_in. intros a Ha. rewrite (Hb a Ha). apply andb_true_r. }
  rewrite He, Hr.
  - split; f_equal; apply filter_ext; intros k; f_equal;
      rewrite dict_mem_keys; f_equal;
      (rewrite keys_copy_known_eq by assumption); [rewrite He | rewrite Hr]; try reflexivity;
      intros k' Hk'; simpl in Hk'; decompose [or] Hk'; subst; try contradiction; reflexivity.
  - intros k' Hk'; simpl in Hk'; decompose [or] Hk'; subst; try contradiction; reflexivity.
  - intros k' Hk'; simpl in Hk'; decompose [or] Hk'; subst; try contradiction; reflexivity.
Qed.

Lemma property_order_is_fixed_witness :
  let row := [("deleted_at", VNone); ("zip", VStr "row"); ("id", VStr "e1");
              ("version", VInt 3)] in
  let d := [("name", VStr "Ada"); ("version", VInt 4); ("zip", VStr "75")] in
  keys (entity_props row (VDict d))
  = ["id"; "tenant_id"; "entity_type"; "version"; "deleted_at"; "name"; "zip"]
  /\ keys (relationship_props row (VDict d))
     = ["id"; "tenant_id"; "deleted_at"; "name"; "version"; "zip"].
Proof.
  intros row d.
  assert (Hnd : NoDup (keys d)).
  { repeat constructor; simpl; intuition discriminate. }
  exact (property_order_is_fixed row d Hnd).
Defined.

Lemma props_lookup (row d : dict) (k : string) :
  NoDup (keys d) ->
  dict_get k (entity_props row (VDict d))
  = match dict_get k d with
    | Some v => Some v
    | None =>
        if in_set k entity_known && dict_mem k row then Some (get row k)
        else if String.eqb k "entity_type" then Some (VStr (py_str (get row "entity_type")))
        else if String.eqb k "tenant_id" then Some (VStr (py_str (get row "tenant_id")))
        else if String.eqb k "id" then Some (VStr (py_str (get row "id")))
        else None
    end
  /\ dict_get k (relationship_props row (VDict d))
     = match dict_get k d with
       | Some v => Some v
       | None =>
           if in_set k relationship_known && dict_mem k row then Some (get row k)
           else if String.eqb k "tenant_id" then Some (VStr (py_str (get row "tenant_id")))
           else if String.eqb k "id" then Some (VStr (py_str (get row "id")))
           else None
       end.
Proof.
  intros Hnd. unfold entity_props, relationship_props. cbv zeta.
  rewrite !(dict_get_merge_data _ _ _ Hnd), !dict_get_copy_known, !dict_get_set.
  split; reflexivity.
Qed.

(** X10.  The property map, key by key.  A key of [data] has the value
    [data] gives it, whatever the row holds under that name; any other key
    is a known column the row has, with the row's value as it is, or one of
    [id], [tenant_id] ([entity_type]) with the row's value as text, or is
    absent.  So the [data] column itself, and the endpoint columns of a
    relationship, are never properties unless [data] names them. *)
Theorem property_map_lookup (row d : dict) (k : string) :
  NoDup (keys d) ->
  dict_get k (entity_props row (VDict d))
  = match dict_get k d with
    | Some v => Some v
    | None =>
        if in_set k entity_known && dict_mem k row then Some (get row k)
        else if String.eqb k "entity_type" then Some (VStr (py_str (get row "entity_type")))
        else if String.eqb k "tenant_id" then Some (VStr (py_str (get row "tenant_id")))
        else if String.eqb k "id" then Some (VStr (py_str (get row "id")))
        else None
    end
  /\ dict_get k (relationship_props row (VDict d))
     = match dict_get k d with
       | Some v => Some v
       | None =>
           if in_set k relationship_known && dict_mem k row then Some (get row k)
           else if String.eqb k "tenant_id" then Some (VStr (py_str (get row "tenant_id")))
           else if String.eqb k "id" then Some (VStr (py_str (get row "id")))
           else None
       end.
Proof.
  intros Hnd. unfold entity_props, relationship_props. cbv zeta.
  rewrite !(dict_get_merge_data _ _ _ Hnd), !dict_get_copy_known, !dict_get_set.
  split; reflexivity.
Qed.

Lemma property_map_lookup_witness :
  let row := [("id", VInt 7); ("tenant_id", VStr "t1"); ("entity_type", VStr "Person");
              ("version", VInt 3); ("deleted_at", VNone); ("note", VStr "x");
              ("data", VDict [("version", VInt 4); ("name", VStr "Ada")])] in
  let props := entity_props row (VDict [("version", VInt 4); ("name", VStr "Ada")]) in
  dict_get "version" props = Some (VInt 4)
  /\ dict_get "id" props = Some (VStr "7")
  /\ dict_get "deleted_at" props = Some VNone
  /\ dict_get "note" props = None
  /\ dict_get "data" props = None.
Proof.
  intros row props.
  assert (Hnd : NoDup (keys [("version", VInt 4); ("name", VStr "Ada")])).
  { repeat constructor; simpl; intuition discriminate. }
  split; [|split; [|split; [|split]]].
  - exact (proj1 (property_map_lookup row _ "version" Hnd)).
  - exact (proj1 (property_map_lookup row _ "id" Hnd)).
  - exact (proj1 (property_map_lookup row _ "deleted_at" Hnd)).
  - exact (proj1 (property_map_lookup row _ "note" Hnd)).
  - exact (proj1 (property_map_lookup row _ "data" Hnd)).
Defined.

Lemma row_builders_without_overlay (json_loads : string -> option value) (row : dict) :
  merge_data (row_data json_loads row) = (fun props => props) ->
  entity_row_cypher json_loads row
  = (if entity_fields_ok row
     then Return (Some (strip (entity_template
                                 (py_str (get row "entity_type"))
                                 (_cypher_literal (VStr (py_str (get row "id"))))
                                 (_cypher_literal (VStr (py_str (get row "tenant_id"))))
                                 (join newline (clauses_of "e" (entity_props row (VDict [])))))))
     else Return None)
  /\ relationship_row_cypher json_loads row
     = (if relationship_fields_ok row
        then Return (Some (strip (relationship_template
               (py_str (get row "from_entity_type"))
               (_cypher_literal (VStr (py_str (get row "from_merged_entity_id"))))
               (py_str (get row "to_entity_type"))
               (_cypher_literal (VStr (py_str (get row "to_merged_entity_id"))))
               (_cypher_literal (VStr (py_str (get row "tenant_id"))))
               (py_str (get row "relationship_type"))
               (_cypher_literal (VStr (py_str (get row "id"))))
               (_cypher_literal (VStr (py_str (get row "tenant_id"))))
               (join newline (clauses_of "r" (relationship_props row (VDict [])))))))
        else Return None).
Proof.
  intros Hnone.
  assert (He : entity_props row (row_data json_loads row) = entity_props row (VDict [])).
  { unfold entity_props. cbv zeta. now rewrite Hnone. }
  assert (Hr : relationship_props row (row_data json_loads row)
               = relationship_props row (VDict [])).
  { unfold relationship_props. cbv zeta. now rewrite Hnone. }
  assert (Hnd : NoDup (keys (@nil (string * value)))) by constructor.
  rewrite entity_row_cypher_eq, relationship_row_cypher_eq. cbv zeta.
  rewrite He, Hr, entity_props_all_written, relationship_props_all_written.
  assert (Hge : forall k, get (entity_props row (VDict [])) k
                          = match dict_get k (entity_props row (VDict [])) with
                            | Some v => v
                            | None => VNone
                            end) by reflexivity.
  assert (Hgr : forall k, get (relationship_props row (VDict [])) k
                          = match dict_get k (relationship_props row (VDict [])) with
                            | Some v => v
                            | None => VNone
                            end) by reflexivity.
  rewrite !Hge, !Hgr.
  rewrite !(proj1 (props_lookup row [] _ Hnd)), !(proj2 (props_lookup row [] _ Hnd)).
  split; reflexivity.
Qed.

Lemma copy_known_ext (ks : list string) (r1 r2 props : dict) :
  (forall k, In k ks -> dict_get k r1 = dict_get k r2) ->
  copy_known ks r1 props = copy_known ks r2 props.
Proof.
  unfold copy_known. revert props.
  induction ks as [|k ks IH]; intros props Hsame; [reflexivity|].
  simpl. unfold dict_mem, get. rewrite (Hsame k) by (now left).
  apply IH. intros k' Hk'. apply Hsame. now right.
Qed.

(** X12.  It makes no difference whether [data] arrives as a mapping or
    as the JSON text of that mapping: two rows that agree on every other
    column give the same outcome with each builder. *)
Theorem data_as_text_or_as_mapping
    (json_loads : string -> option value) (r1 r2 d : dict) (s : string) :
  (forall k, k <> "data" -> dict_get k r1 = dict_get k r2) ->
  get r1 "data" = VStr s ->
  s <> EmptyString ->
  json_loads s = Some (VDict d) ->
  get r2 "data" = VDict d ->
  entity_row_cypher json_loads r1 = entity_row_cypher json_loads r2
  /\ relationship_row_cypher json_loads r1 = relationship_row_cypher json_loads r2.
Proof.
  intros Hsame Hd1 Hs Hparse Hd2.
  assert (Hget : forall k, k <> "data" -> get r1 k = get r2 k).
  { intros k Hk. unfold get. now rewrite (Hsame k Hk). }
  assert (H1 : row_data json_loads r1 = VDict d).
  { unfold row_data, py_or. rewrite Hd1. destruct s; [contradiction|].
    cbn. now rewrite Hparse. }
  assert (H2 : row_data json_loads r2 = VDict d).
  { unfold row_data, py_or. rewrite Hd2. now destruct d. }
  assert (He : forall data, entity_props r1 data = entity_props r2 data).
  { intros data. unfold entity_props. cbv zeta.
    rewrite !(Hget _) by discriminate.
    rewrite (copy_known_ext entity_known r1 r2); [reflexivity|].
    intros k Hk. apply Hsame. simpl in Hk. intuition (subst; discriminate). }
  assert (Hr : forall data, relationship_props r1 data = relationship_props r2 data).
  { intros data. unfold relationship_props. cbv zeta.
    rewrite !(Hget _) by discriminate.
    rewrite (copy_known_ext relationship_known r1 r2); [reflexivity|].
    intros k Hk. apply Hsame. simpl in Hk. intuition (subst; discriminate). }
  rewrite !entity_row_cypher_eq, !relationship_row_cypher_eq. cbv zeta.
  unfold entity_fields_ok, relationship_fields_ok.
  rewrite H1, H2, He, Hr. rewrite !(Hget _) by discriminate.
  split; reflexivity.
Qed.

Lemma data_as_text_or_as_mapping_witness :
  let text := "{" ++ quoted "name" ++ ": " ++ quoted "Ada" ++ "}" in
  let r1 := dict_set "data" (VStr text) ada_row in
  RefJson.loads text = Some (VDict [("name", VStr "Ada")])
  /\ entity_row_cypher RefJson.loads r1 = entity_row_cypher RefJson.loads ada_row.
Proof.
  intros text r1. split; [reflexivity|].
  refine (proj1 (data_as_text_or_as_mapping RefJson.loads r1 ada_row
                   [("name", VStr "Ada")] text _ eq_refl _ eq_refl eq_refl)).
  - intros k Hk. unfold r1. rewrite dict_get_set.
    destruct (String.eqb_spec k "data"); [contradiction | reflexivity].
  - discriminate.
Defined.

(** ** Escaping *)

Lemma escape_cons (c : ascii) (s : string) :
  _cypher_escape_string (String c s)
  = if is_special c then String "\" (String c (_cypher_escape_string s))
    else String c (_cypher_escape_string s).
Proof.
  unfold _cypher_escape_string, is_special. cbn [replace].
  destruct (Ascii.eqb_spec c "\"%char) as [->|Hb]; [reflexivity|].
  cbn [replace orb]. destruct (Ascii.eqb_spec c "'"%char) as [->|Hq]; reflexivity.
Qed.

Lemma escape_length (s : string) :
  String.length (_cypher_escape_string s) = String.length s + str_count is_special s.
Proof.
  induction s as [|c s IH]; [reflexivity|].
  rewrite escape_cons. cbn [str_count String.length].
  destruct (is_special c); cbn [String.length]; rewrite IH; lia.
Qed.

(** X13.  [_cypher_escape_string] works character by character: it
    distributes over concatenation, lengthens a text by exactly the number
    of its backslashes and single quotes, and leaves a text unchanged
    exactly when it has neither. *)
Theorem escape_touches_only_backslash_and_quote (a b s : string) :
  _cypher_escape_string (a ++ b) = _cypher_escape_string a ++ _cypher_escape_string b
  /\ String.length (_cypher_escape_string s) = String.length s + str_count is_special s
  /\ (_cypher_escape_string s = s <-> str_count is_special s = 0).
Proof.
  split; [|split].
  - induction a as [|c a IH]; [reflexivity|].
    cbn [append]. rewrite !escape_cons, IH. now destruct (is_special c).
  - apply escape_length.
  - split.
    + intros Heq. pose proof (escape_length s) as Hl. rewrite Heq in Hl. lia.
    + induction s as [|c s IH]; [reflexivity|].
      rewrite escape_cons. cbn [str_count].
      destruct (is_special c); [discriminate|]. intros Hc. now rewrite IH.
Qed.


(** ** Native literals *)

Lemma value_nested_ind (P : value -> Prop) :
  P VNone -> (forall b, P (VBool b)) -> (forall z, P (VInt z)) ->
  (forall r, P (VFloat r)) -> (forall s, P (VStr s)) ->
  (forall l, Forall P l -> P (VList l)) -> (forall d, P (VDict d)) ->
  forall v, P v.
Proof.
  intros Hnone Hbool Hint Hfloat Hstr Hlist Hdict.
  fix IH 1.
  intros [|b|z|r|s|l|d];
    [exact Hnone | apply Hbool | apply Hint | apply Hfloat | apply Hstr | | apply Hdict].
  apply Hlist.
  exact ((fix all (l : list value) : Forall P l :=
            match l with
            | [] => Forall_nil P
            | x :: t => Forall_cons x (IH x) (all t)
            end) l).
Qed.

Lemma weight_list (l : list value) : weight (VList l) = S (weights l).
Proof. reflexivity. Qed.

Lemma read_uint_digits (d : Decimal.uint) (rest : string) :
  starts_with_digit rest = false ->
  read_uint (NilEmpty.string_of_uint d ++ rest) = (d, rest).
Proof.
  intros Hrest.
  induction d; cbn [NilEmpty.string_of_uint append read_uint];
    try (cbn [digit_of Ascii.eqb Bool.eqb]; rewrite IHd; reflexivity).
  destruct rest as [|c t]; [reflexivity|].
  cbn in Hrest. cbn [read_uint]. now destruct (digit_of c).
Qed.

Lemma read_number_digits (negative : bool) (d : Decimal.uint) (rest : string) :
  starts_with_digit rest = false ->
  read_number negative (NilZero.string_of_uint d ++ rest)
  = Some (VInt (Z.of_int (if negative then Decimal.Neg d else Decimal.Pos d)), rest).
Proof.
  intros Hrest. unfold read_number, NilZero.string_of_uint.
  destruct d; try (rewrite read_uint_digits by exact Hrest; reflexivity).
  change ("0" ++ rest) with (NilEmpty.string_of_uint (Decimal.D0 Decimal.Nil) ++ rest).
  rewrite read_uint_digits by exact Hrest. now destruct negative.
Qed.

Lemma literal_head (v : value) :
  plain v = true ->
  exists c t, _cypher_literal v = String c t /\ c <> "]"%char
              /\ ((forall l, v <> VList l) -> c <> "["%char).
Proof.
  destruct v as [|b|z|r|s|l|d]; cbn [plain]; intros Hp; try discriminate.
  - do 2 eexists; split; [reflexivity | split; [discriminate | intros _; discriminate]].
  - destruct b; do 2 eexists; (split; [reflexivity | split; [discriminate | intros _; discriminate]]).
  - cbn [_cypher_literal py_str py_repr]. unfold str_of_Z.
    destruct (Z.to_int z) as [d|d]; cbn [NilZero.string_of_int].
    + destruct d; do 2 eexists; (split; [reflexivity | split; [discriminate | intros _; discriminate]]).
    + do 2 eexists; split; [reflexivity | split; [discriminate | intros _; discriminate]].
  - do 2 eexists; split; [reflexivity | split; [discriminate | intros _; discriminate]].
  - do 2 eexists; split; [reflexivity | split; [discriminate|]].
    intros Hl. now destruct (Hl l).
Qed.

Lemma read_atom_uint (d : Decimal.uint) (rest : string) :
  read_atom (NilZero.string_of_uint d ++ rest)
  = read_number false (NilZero.string_of_uint d ++ rest).
Proof. destruct d; reflexivity. Qed.

Lemma read_atom_literal (v : value) (rest : string) :
  plain v = true -> (forall l, v <> VList l) ->
  starts_with_digit rest = false ->
  read_atom (_cypher_literal v ++ rest) = Some (v, rest).
Proof.
  destruct v as [|b|z|r|s|l|d]; cbn [plain]; intros Hp Hl Hrest; try discriminate.
  - reflexivity.
  - destruct b; reflexivity.
  - cbn [_cypher_literal py_str py_repr]. unfold str_of_Z.
    rewrite <- (DecimalZ.of_to z) at 2.
    destruct (Z.to_int z) as [d|d]; cbn [NilZero.string_of_int].
    + rewrite read_atom_uint. now apply read_number_digits.
    + cbn [append read_atom Ascii.eqb Bool.eqb]. now apply (read_number_digits true).
  - cbn [_cypher_literal]. cbn [append read_atom]. rewrite Ascii.eqb_refl, append_assoc.
    now rewrite read_escaped_body.
  - now destruct (Hl l).
Qed.

Lemma join_cons_more (sep x : string) (l : list string) :
  l <> [] -> join sep (x :: l) = x ++ sep ++ join sep l.
Proof. destruct l; [contradiction | reflexivity]. Qed.

Lemma read_items_literals (l : list value) :
  Forall reads_back l -> forallb plain l = true -> l <> [] ->
  forall fuel rest,
    weights l <= fuel ->
    read_items fuel (join ", " (map _cypher_literal l) ++ "]" ++ rest) = Some (l, rest).
Proof.
  induction l as [|x t IH]; intros Hall Hplain Hne fuel rest Hfuel; [contradiction|].
  inversion Hall as [|? ? Hx Ht]; subst.
  cbn [forallb] in Hplain. apply andb_true_iff in Hplain. destruct Hplain as [Hpx Hpt].
  cbn [weights] in Hfuel. destruct fuel as [|fuel]; [lia|].
  cbn [read_items]. destruct t as [|y t].
  - cbn [map join String.concat].
    rewrite (Hx Hpx fuel ("]" ++ rest)) by (lia || reflexivity).
    reflexivity.
  - change (map _cypher_literal (x :: y :: t))
      with (_cypher_literal x :: map _cypher_literal (y :: t)).
    rewrite join_cons_more by discriminate. rewrite !append_assoc.
    rewrite (Hx Hpx fuel) by (lia || reflexivity).
    cbn [append Ascii.eqb Bool.eqb].
    change (String "]" rest) with ("]" ++ rest).
    rewrite (IH Ht Hpt) by (discriminate || lia).
    reflexivity.
Qed.

Lemma literal_reads_back (v : value) : reads_back v.
Proof.
  induction v as [|b|z|r|s|l IH|d] using value_nested_ind;
    unfold reads_back; intros Hp fuel rest Hfuel Hrest;
    try discriminate;
    try (destruct fuel as [|fuel]; [cbn in Hfuel; lia|];
         match goal with
         | |- read_native _ (_cypher_literal ?v ++ _) = _ =>
             destruct (literal_head v Hp) as [c [t [Hc [_ Hopen]]]];
             assert (Hnl : forall l, v <> VList l) by (intros; discriminate);
             specialize (Hopen Hnl);
             rewrite <- (read_atom_literal v rest Hp Hnl Hrest);
             rewrite Hc; cbn [append read_native];
             apply Ascii.eqb_neq in Hopen; rewrite Hopen; reflexivity
         end).
  rewrite weight_list in Hfuel. destruct fuel as [|fuel]; [lia|].
  cbn [plain] in Hp. cbn [_cypher_literal].
  destruct l as [|x t]; [reflexivity|].
  assert (Hx : plain x = true) by (cbn [forallb] in Hp; now apply andb_true_iff in Hp).
  destruct (literal_head x Hx) as [c [s [Hc [Hclose _]]]].
  assert (Hjoin : exists s', join ", " (map _cypher_literal (x :: t)) = String c s').
  { destruct t as [|y t].
    - cbn [map join String.concat]. rewrite Hc. eexists; reflexivity.
    - change (map _cypher_literal (x :: y :: t))
        with (_cypher_literal x :: map _cypher_literal (y :: t)).
      rewrite join_cons_more by discriminate. rewrite Hc. eexists; reflexivity. }
  destruct Hjoin as [s' Hs'].
  cbn [append read_native]. rewrite !append_assoc.
  pose proof (read_items_literals (x :: t) IH Hp ltac:(discriminate) fuel rest
                ltac:(lia)) as Hitems.
  rewrite Hs' in Hitems |- *. cbn [append] in Hitems |- *.
  apply Ascii.eqb_neq in Hclose. rewrite Hclose, Hitems. reflexivity.
Qed.

(** X15.  A literal written for null, a boolean, an integer, a text or a
    list of such values (lists nested at will) reads back as the value it
    was written from and ends where the value ends, provided what follows
    is not a digit; fuel equal to the size of the value suffices. *)
Theorem native_literal_round_trip (v : value) (fuel : nat) (rest : string) :
  plain v = true ->
  weight v <= fuel ->
  starts_with_digit rest = false ->
  read_native fuel (_cypher_literal v ++ rest) = Some (v, rest).
Proof.
  intros Hp Hfuel Hrest. now apply literal_reads_back.
Qed.

Lemma native_literal_round_trip_witness :
  let v := VList [VInt (-12); VStr "O'Brien \"; VNone; VList [VBool true; VList []]; VInt 0] in
  _cypher_literal v = "[-12, 'O\'Brien \\', NULL, [true, []], 0]"
  /\ read_native (weight v) (_cypher_literal v ++ "}") = Some (v, "}").
Proof.
  intros v. split; [reflexivity|].
  apply (native_literal_round_trip v (weight v) "}"); [reflexivity | apply le_n | reflexivity].
Defined.

(** X16.  On null, booleans, integers, texts and lists of these,
    [_cypher_literal] is injective: two such values with the same literal
    are the same value.  (A mapping and the text of its JSON do share a
    literal.) *)
Theorem native_literal_is_injective (v w : value) :
  plain v = true -> plain w = true ->
  _cypher_literal v = _cypher_literal w -> v = w.
Proof.
  intros Hv Hw Heq.
  pose proof (literal_reads_back v Hv (weight v + weight w) EmptyString
                ltac:(lia) eq_refl) as H1.
  pose proof (literal_reads_back w Hw (weight v + weight w) EmptyString
                ltac:(lia) eq_refl) as H2.
  rewrite Heq in H1. congruence.
Qed.

Lemma native_literal_is_injective_witness :
  let v := VList [VStr "a', 'b"; VInt 1] in
  plain v = true /\ _cypher_literal v = "['a\', \'b', 1]" /\ v = v.
Proof.
  intros v. split; [reflexivity|]. split; [reflexivity|].
  exact (native_literal_is_injective v v eq_refl eq_refl eq_refl).
Defined.

Example mapping_and_text_share_a_literal :
  _cypher_literal (VDict []) = _cypher_literal (VStr "{}")
  /\ _cypher_literal (VList [VStr "a', 'b"]) <> _cypher_literal (VList [VStr "a"; VStr "b"]).
Proof. split; [reflexivity | discriminate]. Qed.

(** * The builders under an interpreter's limits *)

(** ** Agreement within the limits *)

Lemma str_in_fits (run : interpreter) (v : value) :
  str_fits run v = true -> str_in run v = Return (py_str v).
Proof. unfold str_fits, str_in. now destruct (str_error run v). Qed.

Lemma map_outcome_return {A B : Type} (f : A -> outcome B) (g : A -> B) (l : list A) :
  (forall x, In x l -> f x = Return (g x)) -> map_outcome f l = Return (map g l).
Proof.
  induction l as [|x t IH]; intros H; [reflexivity|].
  cbn [map_outcome map]. rewrite (H x) by (now left). cbn [bind].
  rewrite IH by (intros y Hy; apply H; now right). reflexivity.
Qed.

Lemma literal_in_fits (run : interpreter) (depth : nat) (v : value) :
  literal_fits run depth v = true ->
  _cypher_literal_in run depth v = Return (_cypher_literal v).
Proof.
  revert v. induction depth as [|depth IH]; intros v Hfit; [discriminate|].
  destruct v as [|b|z|r|s|l|d]; cbn [literal_fits] in Hfit;
    cbn [_cypher_literal_in _cypher_literal]; try reflexivity.
  - now apply str_in_fits.
  - now apply str_in_fits.
  - rewrite (map_outcome_return _ _cypher_literal).
    + reflexivity.
    + intros x Hx. apply IH. rewrite forallb_forall in Hfit. now apply Hfit.
  - now destruct (dumps_error run (VDict d)).
Qed.

Lemma literal_fits_depth (run : interpreter) (depth : nat) (v : value) :
  literal_fits run depth v = true -> depth <> 0.
Proof. now destruct depth. Qed.

Lemma set_clauses_in_fits (run : interpreter) (var : string) (items : dict)
    (skip : list string) :
  props_fit run items = true ->
  set_clauses_in run var items skip = Return (set_clauses var items skip).
Proof.
  unfold props_fit.
  induction items as [|[k v] rest IH]; intros Hfit; [reflexivity|].
  cbn [forallb snd] in Hfit. apply andb_true_iff in Hfit. destruct Hfit as [Hv Hrest].
  cbn [set_clauses_in set_clauses].
  destruct (in_set k skip); [now apply IH|].
  destruct (negb (isalnum (replace "_"%char EmptyString k))); [now apply IH|].
  rewrite (literal_in_fits _ _ _ Hv), (IH Hrest). reflexivity.
Qed.

Lemma set_props_in_fits (run : interpreter) (var : string) (props : dict)
    (skip : option (list string)) :
  props_fit run props = true ->
  _set_props_in run var props skip = Return (_set_props var props skip).
Proof.
  intros Hfit. unfold _set_props_in, _set_props.
  now rewrite (set_clauses_in_fits _ _ _ _ Hfit).
Qed.

Lemma dict_get_In (k : string) (v : value) (d : dict) :
  dict_get k d = Some v -> In (k, v) d.
Proof.
  induction d as [|[k0 v0] d IH]; simpl; [discriminate|].
  destruct (String.eqb_spec k k0) as [->|Hne].
  - intros H. injection H as ->. now left.
  - intros H. right. now apply IH.
Qed.

Lemma props_fit_get (run : interpreter) (props : dict) (k : string) :
  props_fit run props = true -> dict_mem k props = true ->
  literal_fits run (call_depth run) (get props k) = true.
Proof.
  unfold props_fit, dict_mem, get. intros Hfit Hmem.
  destruct (dict_get k props) as [v|] eqn:Hget; [|discriminate].
  rewrite forallb_forall in Hfit. exact (Hfit _ (dict_get_In _ _ _ Hget)).
Qed.

Lemma literal_fits_text (run : interpreter) (depth : nat) (v : value) (s : string) :
  literal_fits run depth v = true -> literal_fits run depth (VStr s) = true.
Proof. now destruct depth. Qed.

Lemma entity_row_in_fits (json_loads : string -> option value) (run : interpreter)
    (row : dict) :
  entity_row_fits json_loads run row = true ->
  entity_row_cypher_in json_loads run row = entity_row_cypher json_loads row.
Proof.
  unfold entity_row_fits. rewrite !andb_true_iff. intros [[[Hid Htn] Hty] Hprops].
  unfold entity_row_cypher_in, entity_row_cypher.
  destruct (negb (truthy (get row "id")) || negb (truthy (get row "tenant_id"))
            || negb (truthy (get row "entity_type"))); [reflexivity|].
  rewrite !str_in_fits by assumption. cbn [bind].
  change (merge_data ?d (copy_known entity_known row
            (dict_set "entity_type" ?c (dict_set "tenant_id" ?b (dict_set "id" ?a [])))))
    with (entity_props row (row_data json_loads row)).
  unfold row_data in Hprops |- *.
  set (props := entity_props row (parse_data json_loads (py_or (get row "data") (VDict [])))) in *.
  rewrite !dict_index_mem by (apply entity_props_has; simpl; tauto). cbn [bind].
  rewrite !literal_in_fits by (apply props_fit_get;
                               [assumption | apply entity_props_has; simpl; tauto]).
  cbn [bind]. rewrite (set_props_in_fits _ _ _ _ Hprops). reflexivity.
Qed.

Lemma relationship_row_in_fits (json_loads : string -> option value) (run : interpreter)
    (row : dict) :
  relationship_row_fits json_loads run row = true ->
  relationship_row_cypher_in json_loads run row = relationship_row_cypher json_loads row.
Proof.
  unfold relationship_row_fits. rewrite !andb_true_iff.
  intros [[[[[[[Hid Htn] Hft] Hfi] Htt] Hti] Hrt] Hprops].
  unfold relationship_row_cypher_in, relationship_row_cypher.
  match goal with |- (if ?c then _ else _) = _ => destruct c end; [reflexivity|].
  rewrite !str_in_fits by assumption. cbn [bind].
  change (merge_data ?d (copy_known relationship_known row
            (dict_set "tenant_id" ?b (dict_set "id" ?a []))))
    with (relationship_props row (row_data json_loads row)).
  unfold row_data in Hprops |- *.
  set (props := relationship_props row
                  (parse_data json_loads (py_or (get row "data") (VDict [])))) in *.
  assert (Hkey : literal_fits run (call_depth run) (get props "id") = true).
  { apply props_fit_get; [assumption | apply relationship_props_has; simpl; tauto]. }
  rewrite !(literal_in_fits run (call_depth run) (VStr _))
    by (exact (literal_fits_text _ _ _ _ Hkey)).
  cbn [bind _cypher_literal].
  rewrite !dict_index_mem by (apply relationship_props_has; simpl; tauto). cbn [bind].
  rewrite !literal_in_fits by (apply props_fit_get;
                               [assumption | apply relationship_props_has; simpl; tauto]).
  cbn [bind]. rewrite (set_props_in_fits _ _ _ _ Hprops). reflexivity.
Qed.

Lemma build_in_decoded (json_loads : string -> option value) (run : interpreter)
    (m : message) :
  _build_entity_cypher_in json_loads run m
  = match _as_obj json_loads m with
    | VDict o =>
        match effective_row json_loads m with
        | Some row => entity_row_cypher_in json_loads run row
        | None => Return None
        end
    | _ => _build_entity_cypher json_loads m
    end
  /\ _build_relationship_cypher_in json_loads run m
     = match _as_obj json_loads m with
       | VDict o =>
           match effective_row json_loads m with
           | Some row => relationship_row_cypher_in json_loads run row
           | None => Return None
           end
       | _ => _build_relationship_cypher json_loads m
       end.
Proof.
  unfold _build_entity_cypher_in, _build_relationship_cypher_in,
         _build_entity_cypher, _build_relationship_cypher, effective_row.
  destruct (_as_obj json_loads m) as [|b|z|r|s|l|o];
    try (split; reflexivity);
    try (split; unfold _payload; simpl;
         match goal with
         | |- context [if ?c then _ else _] => destruct c
         end; reflexivity).
  destruct (payload_dict o) as [p Hp]. rewrite Hp. cbn [bind py_get].
  split; now destruct (select_row (get p "after") (get p "before")).
Qed.

Lemma build_decoded_row (json_loads : string -> option value) (m : message) :
  _build_entity_cypher json_loads m
  = match _as_obj json_loads m with
    | VDict o =>
        match effective_row json_loads m with
        | Some row => entity_row_cypher json_loads row
        | None => Return None
        end
    | _ => _build_entity_cypher json_loads m
    end
  /\ _build_relationship_cypher json_loads m
     = match _as_obj json_loads m with
       | VDict o =>
           match effective_row json_loads m with
           | Some row => relationship_row_cypher json_loads row
           | None => Return None
           end
       | _ => _build_relationship_cypher json_loads m
       end.
Proof.
  destruct (_as_obj json_loads m) as [|b|z|r|s|l|o] eqn:Ho; try (split; reflexivity).
  unfold effective_row. rewrite Ho.
  destruct (payload_dict o) as [p Hp]. rewrite Hp.
  rewrite (build_entity_decoded _ _ _ _ Ho Hp), (build_relationship_decoded _ _ _ _ Ho Hp).
  split; reflexivity.
Qed.

Lemma build_in_fits (json_loads : string -> option value) (run : interpreter)
    (m : message) :
  message_fits json_loads run m = true ->
  _build_entity_cypher_in json_loads run m = _build_entity_cypher json_loads m
  /\ _build_relationship_cypher_in json_loads run m = _build_relationship_cypher json_loads m.
Proof.
  unfold message_fits. intros Hfit.
  destruct (build_in_decoded json_loads run m) as [He Hr].
  destruct (build_decoded_row json_loads m) as [He' Hr'].
  rewrite He, Hr, He', Hr'.
  destruct (_as_obj json_loads m); try (split; reflexivity).
  destruct (effective_row json_loads m) as [row|]; [|split; reflexivity].
  apply andb_true_iff in Hfit. destruct Hfit as [Hfe Hfr].
  now rewrite (entity_row_in_fits _ _ _ Hfe), (relationship_row_in_fits _ _ _ Hfr).
Qed.

Lemma transform_loop_ext (build1 build2 : message -> outcome (option string))
    (payloads : list message) (result : list record) :
  Forall (fun m => build1 m = build2 m) payloads ->
  transform_loop build1 payloads result = transform_loop build2 payloads result.
Proof.
  intros Hall. revert result.
  induction Hall as [|m rest Hm _ IH]; intros result; [reflexivity|].
  cbn [transform_loop]. rewrite Hm.
  destruct (build2 m) as [[text|]|e]; cbn [bind]; [|apply IH|reflexivity].
  destruct (negb (is_empty text)); apply IH.
Qed.

Lemma transform_in_fits (json_loads : string -> option value) (run : interpreter)
    (messages : list message) :
  Forall (fun m => message_fits json_loads run m = true) messages ->
  transform_merged_entity_in json_loads run messages
  = transform_merged_entity json_loads messages
  /\ transform_merged_relationship_in json_loads run messages
     = transform_merged_relationship json_loads messages.
Proof.
  intros Hall.
  unfold transform_merged_entity_in, transform_merged_relationship_in,
         transform_merged_entity, transform_merged_relationship.
  split; apply transform_loop_ext; (eapply Forall_impl; [|exact Hall]);
    intros m Hm; now destruct (build_in_fits _ _ _ Hm).
Qed.

(** ** Rows without overlay, spelled out *)

Lemma dict_set_fresh (k : string) (v : value) (d : dict) :
  dict_mem k d = false -> dict_set k v d = (d ++ [(k, v)])%list.
Proof.
  unfold dict_mem. induction d as [|[k0 v0] d IH]; [reflexivity|].
  simpl. destruct (String.eqb k k0); [discriminate|].
  intros H. now rewrite (IH H).
Qed.

Lemma copy_known_fresh (ks : list string) (row base : dict) :
  NoDup ks ->
  (forall k, In k ks -> dict_mem k base = false) ->
  copy_known ks row base
  = (base ++ map (fun k => (k, get row k)) (filter (fun k => dict_mem k row) ks))%list.
Proof.
  unfold copy_known. revert base.
  induction ks as [|k ks IH]; intros base Hnd Hfresh; simpl; [now rewrite app_nil_r|].
  inversion Hnd as [|? ? Hk Hks]; subst.
  destruct (dict_mem k row) eqn:Hrow.
  - rewrite IH; [|exact Hks|].
    + rewrite dict_set_fresh by (apply Hfresh; now left).
      simpl. now rewrite <- app_assoc.
    + intros k' Hk'. rewrite dict_mem_set_eq, (Hfresh k') by (now right).
      destruct (String.eqb_spec k' k) as [->|Hne]; [contradiction | reflexivity].
  - apply IH; [exact Hks|]. intros k' Hk'. apply Hfresh. now right.
Qed.

Lemma entity_props_own (row : dict) :
  entity_props row (VDict [])
  = ([("id", VStr (py_str (get row "id")));
      ("tenant_id", VStr (py_str (get row "tenant_id")));
      ("entity_type", VStr (py_str (get row "entity_type")))]
     ++ map (fun k => (k, get row k)) (filter (fun k => dict_mem k row) entity_known))%list.
Proof.
  unfold entity_props. cbn [merge_data fold_left].
  rewrite copy_known_fresh; [reflexivity | |].
  - repeat constructor; simpl; intuition discriminate.
  - intros k Hk. simpl in Hk. decompose [or] Hk; subst; try contradiction; reflexivity.
Qed.

Lemma relationship_props_own (row : dict) :
  relationship_props row (VDict [])
  = ([("id", VStr (py_str (get row "id")));
      ("tenant_id", VStr (py_str (get row "tenant_id")))]
     ++ map (fun k => (k, get row k))
            (filter (fun k => dict_mem k row) relationship_known))%list.
Proof.
  unfold relationship_props. cbn [merge_data fold_left].
  rewrite copy_known_fresh; [reflexivity | |].
  - repeat constructor; simpl; intuition discriminate.
  - intros k Hk. simpl in Hk. decompose [or] Hk; subst; try contradiction; reflexivity.
Qed.

Lemma rows_without_overlay_text (json_loads : string -> option value) (row : dict) :
  merge_data (row_data json_loads row) = (fun props => props) ->
  entity_row_cypher json_loads row
  = (if entity_fields_ok row then Return (Some (entity_text_of_row row)) else Return None)
  /\ relationship_row_cypher json_loads row
     = (if relationship_fields_ok row
        then Return (Some (relationship_text_of_row row)) else Return None).
Proof.
  intros Hnone.
  destruct (row_builders_without_overlay json_loads row Hnone) as [He Hr].
  rewrite He, Hr, strip_entity_template, strip_relationship_template.
  rewrite entity_props_own, relationship_props_own.
  unfold clauses_of. rewrite !map_app, !map_map.
  split; reflexivity.
Qed.

Lemma effective_row_decoded (json_loads : string -> option value) (m : message)
    (o p : dict) :
  _as_obj json_loads m = VDict o ->
  _payload (VDict o) = Return (VDict p) ->
  effective_row json_loads m = select_row (get p "after") (get p "before").
Proof. intros Ho Hp. unfold effective_row. now rewrite Ho, Hp. Qed.

Lemma rows_in_without_overlay (json_loads : string -> option value) (run : interpreter)
    (m : message) (o p row : dict) :
  _as_obj json_loads m = VDict o ->
  _payload (VDict o) = Return (VDict p) ->
  select_row (get p "after") (get p "before") = Some row ->
  merge_data (row_data json_loads row) = (fun props => props) ->
  entity_row_fits json_loads run row = true ->
  relationship_row_fits json_loads run row = true ->
  _build_entity_cypher_in json_loads run m
  = (if entity_fields_ok row then Return (Some (entity_text_of_row row)) else Return None)
  /\ _build_relationship_cypher_in json_loads run m
     = (if relationship_fields_ok row
        then Return (Some (relationship_text_of_row row)) else Return None).
Proof.
  intros Ho Hp Hrow Hnone Hfe Hfr.
  assert (Hfit : message_fits json_loads run m = true).
  { unfold message_fits. rewrite (effective_row_decoded _ _ _ _ Ho Hp), Hrow.
    now rewrite Hfe, Hfr. }
  destruct (build_in_fits _ _ _ Hfit) as [-> ->].
  rewrite (build_entity_decoded _ _ _ _ Ho Hp), (build_relationship_decoded _ _ _ _ Ho Hp), Hrow.
  now apply rows_without_overlay_text.
Qed.

(** ** The data blob, under limits *)

(** C9 (as stated) fails on a row that passes validation and has a
    malformed [data] text, when one of its known columns is a list nested
    too deep for the interpreter: the builder raises [RecursionError] from
    [_cypher_literal] and produces no statement. *)
Lemma deep_column_raises_despite_malformed_data :
  let deep := nested 600 (VInt 1) in
  let erow := [("id", VStr "e1"); ("tenant_id", VStr "t1"); ("entity_type", VStr "Person");
               ("version", deep); ("data", VStr "{oops")] in
  let rrow := (knows_row ++ [("created_at", deep); ("data", VStr "{oops")])%list in
  RefJson.loads "{oops" = None
  /\ entity_fields_ok erow = true
  /\ _build_entity_cypher_in RefJson.loads RefInterp.python (Obj (VDict (after_event erow)))
     = Raise RecursionError
  /\ relationship_fields_ok rrow = true
  /\ _build_relationship_cypher_in RefJson.loads RefInterp.python
       (Obj (VDict (after_event rrow)))
     = Raise RecursionError.
Proof. repeat split; vm_compute; reflexivity. Qed.

(** C9 (amended).  For a decoded envelope whose effective row has a text
    [data] that [json.loads] rejects, and whose columns are within the
    interpreter's limits, each builder, when the row passes its field
    validation, returns the statement of the row alone: the merge keys are
    the row's own columns as text, and there is one clause for each of
    [id], [tenant_id] (and [entity_type] for an entity), as text, and for
    each known column the row has.  Nothing is raised and the message is
    not dropped. *)
Theorem malformed_data_keeps_known_fields
    (json_loads : string -> option value) (run : interpreter)
    (m : message) (o p row : dict) (s : string) :
  _as_obj json_loads m = VDict o ->
  _payload (VDict o) = Return (VDict p) ->
  select_row (get p "after") (get p "before") = Some row ->
  get row "data" = VStr s ->
  json_loads s = None ->
  entity_row_fits json_loads run row = true ->
  relationship_row_fits json_loads run row = true ->
  _build_entity_cypher_in json_loads run m
  = (if entity_fields_ok row then Return (Some (entity_text_of_row row)) else Return None)
  /\ _build_relationship_cypher_in json_loads run m
     = (if relationship_fields_ok row
        then Return (Some (relationship_text_of_row row)) else Return None).
Proof.
  intros Ho Hp Hrow Hdata Hbad Hfe Hfr.
  apply (rows_in_without_overlay json_loads run m o p row Ho Hp Hrow); try assumption.
  now rewrite (row_data_malformed _ _ _ Hdata Hbad).
Qed.

Lemma malformed_data_keeps_known_fields_witness :
  let erow := [("id", VStr "e1"); ("tenant_id", VStr "t1"); ("entity_type", VStr "Person");
               ("version", VInt 3); ("data", VStr "{oops")] in
  let rrow := (knows_row ++ [("deleted_at", VNone); ("source_plan_id", VStr "p'1");
                             ("data", VStr "{oops")])%list in
  RefJson.loads "{oops" = None
  /\ _build_entity_cypher_in RefJson.loads RefInterp.python (Obj (VDict (after_event erow)))
     = Return (Some (lines [ "MERGE (e:Person {id: 'e1', tenant_id: 't1'})";
                             "SET e.id = 'e1'";
                             "SET e.tenant_id = 't1'";
                             "SET e.entity_type = 'Person'";
                             "SET e.version = 3";
                             "RETURN e;" ]))
  /\ _build_relationship_cypher_in RefJson.loads RefInterp.python
       (Obj (VDict (after_event rrow)))
     = Return (Some (lines [ "MERGE (a:Person {id: 'e1', tenant_id: 't1'})";
                             "MERGE (b:Person {id: 'e2', tenant_id: 't1'})";
                             "MERGE (a)-[r:KNOWS {id: 'r1', tenant_id: 't1'}]->(b)";
                             "SET r.id = 'r1'";
                             "SET r.tenant_id = 't1'";
                             "SET r.source_plan_id = 'p\'1'";
                             "SET r.deleted_at = NULL";
                             "RETURN r;" ])).
Proof.
  intros erow rrow. split; [reflexivity|]. split.
  - exact (proj1 (malformed_data_keeps_known_fields RefJson.loads RefInterp.python
                    (Obj (VDict (after_event erow))) (after_event erow) (after_event erow)
                    erow "{oops" eq_refl eq_refl eq_refl eq_refl eq_refl eq_refl eq_refl)).
  - exact (proj2 (malformed_data_keeps_known_fields RefJson.loads RefInterp.python
                    (Obj (VDict (after_event rrow))) (after_event rrow) (after_event rrow)
                    rrow "{oops" eq_refl eq_refl eq_refl eq_refl eq_refl eq_refl eq_refl)).
Defined.

(** X11.  A [data] that is, or parses to, something other than a mapping
    (a number, a list, a text, [true], the document [null]) is ignored:
    for a row within the interpreter's limits that passes a builder's
    validation, the statement is that of the row alone, nothing is raised
    and the message is not dropped. *)
Theorem non_mapping_data_is_ignored
    (json_loads : string -> option value) (run : interpreter)
    (m : message) (o p row : dict) :
  _as_obj json_loads m = VDict o ->
  _payload (VDict o) = Return (VDict p) ->
  select_row (get p "after") (get p "before") = Some row ->
  is_dict (row_data json_loads row) = false ->
  entity_row_fits json_loads run row = true ->
  relationship_row_fits json_loads run row = true ->
  _build_entity_cypher_in json_loads run m
  = (if entity_fields_ok row then Return (Some (entity_text_of_row row)) else Return None)
  /\ _build_relationship_cypher_in json_loads run m
     = (if relationship_fields_ok row
        then Return (Some (relationship_text_of_row row)) else Return None).
Proof.
  intros Ho Hp Hrow Hdata Hfe Hfr.
  apply (rows_in_without_overlay json_loads run m o p row Ho Hp Hrow); try assumption.
  destruct (row_data json_loads row); try reflexivity. discriminate.
Qed.

Lemma non_mapping_data_is_ignored_witness :
  let erow := [("id", VInt 7); ("tenant_id", VStr "t1"); ("entity_type", VStr "Person");
               ("updated_at", VStr "2024-01-01"); ("data", VInt 5)] in
  let rrow := (knows_row ++ [("created_at", VInt 1700000000); ("data", VStr "[1, 2]")])%list in
  row_data RefJson.loads rrow = VList [VInt 1; VInt 2]
  /\ _build_entity_cypher_in RefJson.loads RefInterp.python (Obj (VDict (after_event erow)))
     = Return (Some (lines [ "MERGE (e:Person {id: '7', tenant_id: 't1'})";
                             "SET e.id = '7'";
                             "SET e.tenant_id = 't1'";
                             "SET e.entity_type = 'Person'";
                             "SET e.updated_at = '2024-01-01'";
                             "RETURN e;" ]))
  /\ _build_relationship_cypher_in RefJson.loads RefInterp.python
       (Obj (VDict (after_event rrow)))
     = Return (Some (lines [ "MERGE (a:Person {id: 'e1', tenant_id: 't1'})";
                             "MERGE (b:Person {id: 'e2', tenant_id: 't1'})";
                             "MERGE (a)-[r:KNOWS {id: 'r1', tenant_id: 't1'}]->(b)";
                             "SET r.id = 'r1'";
                             "SET r.tenant_id = 't1'";
                             "SET r.created_at = 1700000000";
                             "RETURN r;" ])).
Proof.
  intros erow rrow. split; [reflexivity|]. split.
  - exact (proj1 (non_mapping_data_is_ignored RefJson.loads RefInterp.python
                    (Obj (VDict (after_event erow))) (after_event erow) (after_event erow)
                    erow eq_refl eq_refl eq_refl eq_refl eq_refl eq_refl)).
  - exact (proj2 (non_mapping_data_is_ignored RefJson.loads RefInterp.python
                    (Obj (VDict (after_event rrow))) (after_event rrow) (after_event rrow)
                    rrow eq_refl eq_refl eq_refl eq_refl eq_refl eq_refl)).
Defined.

(** ** Failures, under limits *)

(** X1.  On a message whose effective row, if it has one, is within the
    interpreter's limits, a builder raises exactly when the message
    decodes to a document which is neither null nor a mapping; on every
    other such message it returns a statement or null. *)
Theorem builders_raise_exactly_on_non_mappings
    (json_loads : string -> option value) (run : interpreter) (m : message) :
  message_fits json_loads run m = true ->
  ((exists e, _build_entity_cypher_in json_loads run m = Raise e)
   <-> non_mapping json_loads m)
  /\ ((exists e, _build_relationship_cypher_in json_loads run m = Raise e)
      <-> non_mapping json_loads m).
Proof.
  intros Hfit. destruct (build_in_fits _ _ _ Hfit) as [-> ->].
  apply unlimited_builders_raise_iff.
Qed.

Lemma builders_raise_exactly_on_non_mappings_witness :
  (non_mapping RefJson.loads (Bytes (Some "[1]"))
   /\ exists e, _build_entity_cypher_in RefJson.loads RefInterp.python (Bytes (Some "[1]"))
                = Raise e)
  /\ ~ non_mapping RefJson.loads (Bytes (Some ada_json))
  /\ ~ exists e, _build_entity_cypher_in RefJson.loads RefInterp.python
                   (Bytes (Some ada_json)) = Raise e.
Proof.
  assert (Hbad : non_mapping RefJson.loads (Bytes (Some "[1]"))).
  { split; [discriminate | reflexivity]. }
  assert (Hgood : ~ non_mapping RefJson.loads (Bytes (Some ada_json))).
  { intros [_ H]. discriminate H. }
  split; [split; [exact Hbad|] | split; [exact Hgood|]].
  - exact (proj2 (proj1 (builders_raise_exactly_on_non_mappings RefJson.loads
                           RefInterp.python (Bytes (Some "[1]")) eq_refl)) Hbad).
  - intros Hraise. apply Hgood.
    exact (proj1 (proj1 (builders_raise_exactly_on_non_mappings RefJson.loads
                           RefInterp.python (Bytes (Some ada_json)) eq_refl)) Hraise).
Defined.

(** X6.  When every message of a batch decodes to null or to a mapping
    and has its effective row, if any, within the interpreter's limits, a
    transformation does not raise and returns, in message order, one
    record per message for which its builder gives a statement, holding
    that statement as [query] and no [parameters]; the other messages
    leave no trace. *)
Theorem transform_keeps_built_statements
    (json_loads : string -> option value) (run : interpreter) (messages : list message) :
  Forall (fun m => ~ non_mapping json_loads m) messages ->
  Forall (fun m => message_fits json_loads run m = true) messages ->
  transform_merged_entity_in json_loads run messages
  = Return (map to_record
              (flat_map (fun m => built (_build_entity_cypher_in json_loads run m)) messages))
  /\ transform_merged_relationship_in json_loads run messages
     = Return (map to_record
                 (flat_map (fun m => built (_build_relationship_cypher_in json_loads run m))
                           messages)).
Proof.
  intros Hall Hfit.
  destruct (transform_in_fits _ _ _ Hfit) as [-> ->].
  destruct (unlimited_transform_returns json_loads messages Hall) as [-> ->].
  split; do 2 f_equal; induction Hfit as [|m rest Hm _ IH]; try reflexivity;
    cbn [flat_map]; rewrite IH by (now inversion Hall);
    destruct (build_in_fits _ _ _ Hm) as [He Hr]; rewrite ?He, ?Hr; reflexivity.
Qed.

Lemma transform_keeps_built_statements_witness :
  let batch := [Obj (VDict (after_event ada_row)); Bytes None; Bytes (Some "{oops");
                Obj (VDict (delete_event knows_row)); Bytes (Some ada_json);
                Obj (VDict [("op", VStr "d")])] in
  let ada := lines [ "MERGE (e:Person {id: 'e1', tenant_id: 't1'})";
                     "SET e.id = 'e1'"; "SET e.tenant_id = 't1'";
                     "SET e.entity_type = 'Person'"; "SET e.name = 'Ada'";
                     "RETURN e;" ] in
  transform_merged_entity_in RefJson.loads RefInterp.python batch
  = Return [mk_record ada None; mk_record ada None].
Proof.
  intros batch ada.
  refine (proj1 (transform_keeps_built_statements RefJson.loads RefInterp.python batch _ _)).
  - unfold non_mapping.
    repeat (constructor; [intros [Hn Hd]; vm_compute in Hn, Hd;
                          first [discriminate Hd | now apply Hn]|]).
    constructor.
  - repeat (constructor; [reflexivity|]). constructor.
Defined.

(** X7.  When every message of a batch has its effective row, if any,
    within the interpreter's limits, a transformation raises exactly when
    some message decodes to a document that is neither null nor a mapping;
    the records built from the other messages of that batch are then not
    returned. *)
Theorem transform_raises_on_one_bad_message
    (json_loads : string -> option value) (run : interpreter) (messages : list message) :
  Forall (fun m => message_fits json_loads run m = true) messages ->
  ((exists e, transform_merged_entity_in json_loads run messages = Raise e)
   <-> Exists (non_mapping json_loads) messages)
  /\ ((exists e, transform_merged_relationship_in json_loads run messages = Raise e)
      <-> Exists (non_mapping json_loads) messages).
Proof.
  intros Hfit. destruct (transform_in_fits _ _ _ Hfit) as [-> ->].
  apply unlimited_transform_raises_iff.
Qed.

Lemma transform_raises_on_one_bad_message_witness :
  let batch := [Obj (VDict (after_event ada_row)); Bytes (Some "[1]"); Bytes (Some ada_json)] in
  transform_merged_entity_in RefJson.loads RefInterp.python batch = Raise AttributeError
  /\ exists e, transform_merged_relationship_in RefJson.loads RefInterp.python batch = Raise e.
Proof.
  intros batch. split; [reflexivity|].
  refine (proj2 (proj2 (transform_raises_on_one_bad_message RefJson.loads RefInterp.python
                          batch _)) _).
  - repeat (constructor; [reflexivity|]). constructor.
  - apply Exists_cons_tl, Exists_cons_hd. split; [discriminate | reflexivity].
Defined.

(** ** The limits themselves *)

(** X17.  Within the interpreter's limits the limits are not seen: on a
    message whose effective row fits, both builders run by the interpreter
    give what they give without limits, and so do the transformations on a
    batch of such messages. *)
Theorem limits_are_not_seen_within_them
    (json_loads : string -> option value) (run : interpreter) (messages : list message) :
  Forall (fun m => message_fits json_loads run m = true) messages ->
  Forall (fun m => _build_entity_cypher_in json_loads run m = _build_entity_cypher json_loads m
                   /\ _build_relationship_cypher_in json_loads run m
                      = _build_relationship_cypher json_loads m) messages
  /\ transform_merged_entity_in json_loads run messages
     = transform_merged_entity json_loads messages
  /\ transform_merged_relationship_in json_loads run messages
     = transform_merged_relationship json_loads messages.
Proof.
  intros Hfit. split; [|exact (transform_in_fits _ _ _ Hfit)].
  induction Hfit as [|m rest Hm _ IH]; constructor;
    [exact (build_in_fits _ _ _ Hm) | exact IH].
Qed.

Lemma limits_are_not_seen_within_them_witness :
  let batch := [Bytes (Some ada_json); Obj (VDict (after_event knows_row)); Bytes (Some "[1]")] in
  transform_merged_entity_in RefJson.loads RefInterp.python batch
  = transform_merged_entity RefJson.loads batch
  /\ transform_merged_relationship_in RefJson.loads RefInterp.python batch
     = transform_merged_relationship RefJson.loads batch.
Proof.
  intros batch.
  refine (proj2 (limits_are_not_seen_within_them RefJson.loads RefInterp.python batch _)).
  repeat (constructor; [reflexivity|]). constructor.
Defined.

(** X18.  [_cypher_literal] on a list nested [n] deep around the integer 1
    needs [n + 1] nested calls: with as many allowed it returns the
    literal, with fewer it raises [RecursionError]. *)
Theorem literal_of_nested_list_needs_depth (run : interpreter) (depth n : nat) :
  str_error run (VInt 1) = None ->
  _cypher_literal_in run depth (nested n (VInt 1))
  = (if (n <? depth)%nat then Return (_cypher_literal (nested n (VInt 1)))
     else Raise RecursionError).
Proof.
  intros Hone. revert depth. induction n as [|n IH]; intros [|depth]; try reflexivity.
  - cbn. unfold str_in. now rewrite Hone.
  - change (nested (S n) (VInt 1)) with (VList [nested n (VInt 1)]).
    cbn [_cypher_literal_in map_outcome]. rewrite IH.
    change (S n <? S depth)%nat with (n <? depth)%nat.
    destruct (n <? depth)%nat; reflexivity.
Qed.

Lemma literal_of_nested_list_needs_depth_witness :
  _cypher_literal_in RefInterp.python 100 (nested 99 (VInt 1))
  = Return (_cypher_literal (nested 99 (VInt 1)))
  /\ _cypher_literal_in RefInterp.python 100 (nested 100 (VInt 1)) = Raise RecursionError
  /\ _cypher_literal_in RefInterp.python 3 (nested 2 (VInt 1)) = Return "[[1]]".
Proof.
  split; [|split].
  - exact (literal_of_nested_list_needs_depth RefInterp.python 100 99 eq_refl).
  - exact (literal_of_nested_list_needs_depth RefInterp.python 100 100 eq_refl).
  - exact (literal_of_nested_list_needs_depth RefInterp.python 3 2 eq_refl).
Defined.
